(** * ContentCraft server: the in-memory content store and the request handlers

    A shallow embedding of [storage.ts] (class [MemStorage], content
    methods), of the schema types of [scheme.ts] (imported as
    [@shared/schema]), of the result shape declared in [openai.ts] (imported
    as [./lib/openai]) and of the route handlers that [registerRoutes]
    installs for content generation, image analysis and content update.

    Conventions.
    - A JavaScript [number] that holds an id, a count or an epoch-millisecond
      instant is an integer [Z]; the counters never come near 2^53.
    - A JavaScript [Map] is an association list in insertion order: [set]
      on a present key replaces the value in place, [set] on a new key
      appends, iteration ([values()]) follows the list.
    - [async]/[await] is sequencing on the single-threaded event loop; a
      method is a function from the store to a result and the next store.
    - A [Date] is the instant it denotes ([getTime()], milliseconds). *)

From Stdlib Require Import String Ascii ZArith List Bool Lia.
From Stdlib Require Import Permutation Sorted.
Import ListNotations.

Local Open Scope Z_scope.

(** ** JavaScript [Map<number, V>] *)

Module JsMap.
Section Ops.
Context {V : Type}.

Definition t := list (Z * V).

Definition empty : t := [].

(** [m.get(k)]: the value, or [None] for [undefined]. *)
Fixpoint get (k : Z) (m : t) : option V :=
  match m with
  | [] => None
  | (k', v) :: m' => if k =? k' then Some v else get k m'
  end.

Definition has (k : Z) (m : t) : bool :=
  match get k m with Some _ => true | None => false end.

(** [m.set(k, v)]: a present key keeps its place, a new key goes last. *)
Fixpoint set (k : Z) (v : V) (m : t) : t :=
  match m with
  | [] => [(k, v)]
  | (k', v') :: m' =>
      if k =? k' then (k, v) :: m' else (k', v') :: set k v m'
  end.

(** [m.delete(k)]: the entry is removed; the result of the call is
    [has k m]. *)
Definition delete (k : Z) (m : t) : t :=
  filter (fun e => negb (k =? fst e)) m.

(** [Array.from(m.values())] *)
Definition values (m : t) : list V := map snd m.

Definition keys (m : t) : list Z := map fst m.

(** [m.size] *)
Definition size (m : t) : Z := Z.of_nat (length m).
End Ops.
Arguments t : clear implicits.
End JsMap.

(** ** [Array.prototype.sort(compareFn)]

    ECMAScript requires the sort to be stable, and a consistent comparator
    fixes the result; it is computed here by insertion. [compareFn a b < 0]
    puts [a] first, [0] keeps the order of the input. *)

Section JsSort.
Context {A : Type}.
Variable compareFn : A -> A -> Z.

Fixpoint sort_insert (x : A) (l : list A) : list A :=
  match l with
  | [] => [x]
  | y :: l' =>
      if compareFn x y <=? 0 then x :: y :: l' else y :: sort_insert x l'
  end.

Fixpoint js_sort (l : list A) : list A :=
  match l with
  | [] => []
  | x :: l' => sort_insert x (js_sort l')
  end.
End JsSort.

(** ** Schema ([scheme.ts]) *)

(** A nullable column: [T | null]. *)
Inductive nullable (T : Type) : Type :=
| null : nullable T
| notnull : T -> nullable T.
Arguments null {T}.
Arguments notnull {T} _.

Section Schema.
(** The [json] column [metadata] has type [unknown]: the store copies it
    and never looks inside. *)
Context {Json : Type}.

(** [Content = typeof content.$inferSelect]. An optional key of the insert
    payload that was left out stays absent in the stored object ([None]). *)
Record Content : Type := {
  id : Z;
  userId : Z;
  title : string;
  description : option (nullable string);
  platform : string;
  contentType : string;
  brief : string;
  generatedContent : string;
  images : option (nullable (list string));
  metadata : option Json;
  createdAt : Z
}.

(** [InsertContent]: the insert schema omits [id] and [createdAt]. *)
Record InsertContent : Type := {
  ins_userId : Z;
  ins_title : string;
  ins_description : option (nullable string);
  ins_platform : string;
  ins_contentType : string;
  ins_brief : string;
  ins_generatedContent : string;
  ins_images : option (nullable (list string));
  ins_metadata : option Json
}.

(** The object handed to [updateContent]. Its declared type is
    [Partial<InsertContent>]; the value is whatever keys the caller's
    object carries, so the keys [id] and [createdAt] can be present at run
    time ([None] is an absent key). *)
Record ContentUpdates : Type := {
  upd_id : option Z;
  upd_userId : option Z;
  upd_title : option string;
  upd_description : option (nullable string);
  upd_platform : option string;
  upd_contentType : option string;
  upd_brief : option string;
  upd_generatedContent : option string;
  upd_images : option (nullable (list string));
  upd_metadata : option Json;
  upd_createdAt : option Z
}.

Definition no_updates : ContentUpdates :=
  {| upd_id := None; upd_userId := None; upd_title := None;
     upd_description := None; upd_platform := None;
     upd_contentType := None; upd_brief := None;
     upd_generatedContent := None; upd_images := None;
     upd_metadata := None; upd_createdAt := None |}.

(** An object of the declared type [Partial<InsertContent>]. *)
Definition well_typed_updates (u : ContentUpdates) : Prop :=
  upd_id u = None /\ upd_createdAt u = None.

(** One key of [{ ...existing, ...updates }]. *)
Definition spread_key {T : Type} (existing : T) (update : option T) : T :=
  match update with Some v => v | None => existing end.

(** One key that may be absent in both objects. *)
Definition spread_opt {T : Type} (existing update : option T) : option T :=
  match update with Some v => Some v | None => existing end.
End Schema.
Arguments Content : clear implicits.
Arguments InsertContent : clear implicits.
Arguments ContentUpdates : clear implicits.

(** ** [MemStorage] ([storage.ts]), content methods *)

Section Storage.
Context {Json : Type}.

(** The fields the content methods read and write. The user and template
    maps and their counters are separate fields that no content method
    touches. *)
Record MemStorage : Type := {
  content : JsMap.t (Content Json);
  currentContentId : Z
}.

(** [new MemStorage()] *)
Definition new_MemStorage : MemStorage :=
  {| content := JsMap.empty; currentContentId := 1 |}.

Definition getContent (s : MemStorage) (id : Z) : option (Content Json) :=
  JsMap.get id (content s).

(** The range of a [Date], in milliseconds either side of the epoch. *)
Definition max_instant : Z := 8640000000000000.

(** An instant a [Date] can hold. [new Date()] always reads one. *)
Definition valid_instant (t : Z) : Prop := - max_instant <= t <= max_instant.

(** [new Date(x).getTime()]: the instant, or [NaN] ([None]) for a number out
    of the range of a [Date]. *)
Definition getTime (x : Z) : option Z :=
  if (- max_instant <=? x) && (x <=? max_instant) then Some x else None.

(** [(a, b) => new Date(b.createdAt).getTime() - new Date(a.createdAt).getTime()],
    as the sort reads the result: a difference with [NaN] is [NaN], and the
    sort takes a [NaN] result for 0. Among records with an instant out of
    range the comparator is not consistent, and the order the engine then
    produces is its own; what is stated about the order below is stated for
    valid instants. *)
Definition by_createdAt_desc (a b : Content Json) : Z :=
  match getTime (createdAt b), getTime (createdAt a) with
  | Some tb, Some ta => tb - ta
  | _, _ => 0
  end.

Definition getContentByUserId (s : MemStorage) (uid : Z) : list (Content Json) :=
  js_sort by_createdAt_desc
    (filter (fun c => userId c =? uid) (JsMap.values (content s))).

(** [createContent]; [now] is the instant [new Date()] reads. *)
Definition createContent (s : MemStorage) (insertContent : InsertContent Json)
    (now : Z) : Content Json * MemStorage :=
  let id := currentContentId s in
  let newContent :=
    {| id := id;
       userId := ins_userId insertContent;
       title := ins_title insertContent;
       description := ins_description insertContent;
       platform := ins_platform insertContent;
       contentType := ins_contentType insertContent;
       brief := ins_brief insertContent;
       generatedContent := ins_generatedContent insertContent;
       images := ins_images insertContent;
       metadata := ins_metadata insertContent;
       createdAt := now |} in
  (newContent,
   {| content := JsMap.set id newContent (content s);
      currentContentId := id + 1 |}).

(** [{ ...existing, ...updates }] *)
Definition spread (existing : Content Json) (updates : ContentUpdates Json)
    : Content Json :=
  {| id := spread_key (id existing) (upd_id updates);
     userId := spread_key (userId existing) (upd_userId updates);
     title := spread_key (title existing) (upd_title updates);
     description := spread_opt (description existing) (upd_description updates);
     platform := spread_key (platform existing) (upd_platform updates);
     contentType := spread_key (contentType existing) (upd_contentType updates);
     brief := spread_key (brief existing) (upd_brief updates);
     generatedContent :=
       spread_key (generatedContent existing) (upd_generatedContent updates);
     images := spread_opt (images existing) (upd_images updates);
     metadata := spread_opt (metadata existing) (upd_metadata updates);
     createdAt := spread_key (createdAt existing) (upd_createdAt updates) |}.

Definition updateContent (s : MemStorage) (id : Z)
    (updates : ContentUpdates Json) : option (Content Json) * MemStorage :=
  match JsMap.get id (content s) with
  | None => (None, s)
  | Some existing =>
      let updated := spread existing updates in
      (Some updated,
       {| content := JsMap.set id updated (content s);
          currentContentId := currentContentId s |})
  end.

Definition deleteContent (s : MemStorage) (id : Z) : bool * MemStorage :=
  (JsMap.has id (content s),
   {| content := JsMap.delete id (content s);
      currentContentId := currentContentId s |}).

(** The owner's records, in the order the map iterates them (insertion
    order). *)
Definition owned_in_insertion_order (s : MemStorage) (uid : Z) : list (Content Json) :=
  filter (fun c => userId c =? uid) (JsMap.values (content s)).

(** Every record of the store carries a valid instant as [createdAt]. *)
Definition valid_instants (s : MemStorage) : Prop :=
  Forall (fun c => valid_instant (createdAt c)) (JsMap.values (content s)).

(** Every key of [{ ...existing, ...updates }]: the value of [updates] where
    it has the key, the value of [existing] where it does not. *)
Definition merged (existing : Content Json) (updates : ContentUpdates Json)
    (updated : Content Json) : Prop :=
  id updated = match upd_id updates with Some v => v | None => id existing end
  /\ userId updated
     = match upd_userId updates with Some v => v | None => userId existing end
  /\ title updated
     = match upd_title updates with Some v => v | None => title existing end
  /\ description updated
     = match upd_description updates with
       | Some v => Some v
       | None => description existing
       end
  /\ platform updated
     = match upd_platform updates with Some v => v | None => platform existing end
  /\ contentType updated
     = match upd_contentType updates with
       | Some v => v
       | None => contentType existing
       end
  /\ brief updated
     = match upd_brief updates with Some v => v | None => brief existing end
  /\ generatedContent updated
     = match upd_generatedContent updates with
       | Some v => v
       | None => generatedContent existing
       end
  /\ images updated
     = match upd_images updates with Some v => Some v | None => images existing end
  /\ metadata updated
     = match upd_metadata updates with
       | Some v => Some v
       | None => metadata existing
       end
  /\ createdAt updated
     = match upd_createdAt updates with
       | Some v => v
       | None => createdAt existing
       end.
End Storage.
Arguments MemStorage : clear implicits.

(** ** A plain object used as a dictionary ([Record<string, number>])

    [const platformCounts = {}] is an ordinary object: reading a key that is
    not an own property falls through to [Object.prototype], and writing the
    key [__proto__] runs the prototype's setter instead of creating a
    property. *)

Module JsObject.
(** What an own property of the counters object can hold: a number, or a
    string once [+] has concatenated. *)
Inductive value : Type :=
| Num (n : Z)
| Str (s : string).

(** Own enumerable properties, in creation order. *)
Definition t := list (string * value).

Fixpoint own (k : string) (o : t) : option value :=
  match o with
  | [] => None
  | (k', v) :: o' => if String.eqb k k' then Some v else own k o'
  end.

(** The function-valued properties of [Object.prototype]: property name
    and the name of the built-in function it holds. *)
Definition prototype_functions : list (string * string) :=
  [ ("constructor", "Object");
    ("hasOwnProperty", "hasOwnProperty");
    ("isPrototypeOf", "isPrototypeOf");
    ("propertyIsEnumerable", "propertyIsEnumerable");
    ("toLocaleString", "toLocaleString");
    ("toString", "toString");
    ("valueOf", "valueOf");
    ("__defineGetter__", "__defineGetter__");
    ("__defineSetter__", "__defineSetter__");
    ("__lookupGetter__", "__lookupGetter__");
    ("__lookupSetter__", "__lookupSetter__") ]%string.

Fixpoint assoc (k : string) (l : list (string * string)) : option string :=
  match l with
  | [] => None
  | (k', v) :: l' => if String.eqb k k' then Some v else assoc k l'
  end.

(** The text of a built-in function, as [+] converts it. *)
Definition native_code (name : string) : string :=
  ("function " ++ name ++ "() { [native code] }")%string.

(** What [o[k]] evaluates to. *)
Inductive looked_up : Type :=
| Undefined
| Own (v : value)
| Inherited (text : string).   (* an object or function; [text] is its string conversion *)

Definition inherited (k : string) : option string :=
  if String.eqb k "__proto__" then Some "[object Object]"%string
  else option_map native_code (assoc k prototype_functions).

Definition get (k : string) (o : t) : looked_up :=
  match own k o with
  | Some v => Own v
  | None =>
      match inherited k with
      | Some text => Inherited text
      | None => Undefined
      end
  end.

(** [(x || 0) + 1] *)
Definition or_zero_plus_one (x : looked_up) : value :=
  match x with
  | Undefined => Num 1
  | Own (Num n) => if n =? 0 then Num 1 else Num (n + 1)
  | Own (Str s) =>
      if String.eqb s EmptyString then Num 1 else Str (s ++ "1")
  | Inherited text => Str (text ++ "1")
  end.

Fixpoint define (k : string) (v : value) (o : t) : t :=
  match o with
  | [] => [(k, v)]
  | (k', v') :: o' =>
      if String.eqb k k' then (k, v) :: o' else (k', v') :: define k v o'
  end.

(** [o[k] = v] for a primitive [v]: the [__proto__] setter ignores a value
    that is neither an object nor [null]; every other key becomes (or
    stays) an own property. *)
Definition set (k : string) (v : value) (o : t) : t :=
  if String.eqb k "__proto__" then o else define k v o.

(** [Object.keys(o)]. The engine lists integer-like keys first; only the
    length is used. *)
Definition keys (o : t) : list string := map fst o.

(** The sum of the values when all of them are numbers. *)
Fixpoint sum (o : t) : option Z :=
  match o with
  | [] => Some 0
  | (_, Num n) :: o' => option_map (Z.add n) (sum o')
  | (_, Str _) :: _ => None
  end.
End JsObject.

(** Every own property is a positive number. *)
Definition counters (o : JsObject.t) : Prop :=
  forall k v, JsObject.own k o = Some v -> exists n, v = JsObject.Num n /\ 1 <= n.

Section Stats.
Context {Json : Type}.

Record ContentStats : Type := {
  totalContent : Z;
  aiGenerated : Z;
  platforms : Z;
  byPlatform : JsObject.t
}.

(** The body of the [forEach] callback. *)
Definition count_platform (platformCounts : JsObject.t) (c : Content Json)
    : JsObject.t :=
  JsObject.set (platform c)
    (JsObject.or_zero_plus_one (JsObject.get (platform c) platformCounts))
    platformCounts.

Definition getContentStats (s : MemStorage Json) (uid : Z) : ContentStats :=
  let userContent := getContentByUserId s uid in
  let platformCounts := fold_left count_platform userContent [] in
  {| totalContent := Z.of_nat (length userContent);
     aiGenerated := Z.of_nat (length userContent);
     platforms := Z.of_nat (length (JsObject.keys platformCounts));
     byPlatform := platformCounts |}.

(** The number of distinct platform values among some records. *)
Definition distinct_platforms (l : list (Content Json)) : Z :=
  Z.of_nat (length (nodup string_dec (map platform l))).

(** A platform tag that names nothing on [Object.prototype]. *)
Definition ordinary (c : Content Json) : Prop := JsObject.inherited (platform c) = None.
End Stats.

(** ** The provider adapter's interface ([openai.ts]) *)

Record Metadata : Type := {
  estimatedDuration : option string;
  wordCount : Z;
  characterCount : Z;
  tone : string;
  targetAudience : string
}.

Record ContentGenerationRequest : Type := {
  req_platform : string;
  req_contentType : string;
  req_brief : string;
  req_images : option (list string);   (* base64 encoded images *)
  req_template : option string
}.

Record GeneratedContent : Type := {
  gc_title : string;
  gc_content : string;
  gc_hashtags : list string;
  gc_metadata : Metadata
}.

(** How an awaited call ends: with a value, or by throwing an [Error]. *)
Inductive Outcome (A : Type) : Type :=
| Return (a : A)
| Throw (message : string).
Arguments Return {A} a.
Arguments Throw {A} message.

(** ** Request handlers ([registerRoutes]) *)

(** A call the server made to the provider adapter. *)
Inductive ProviderCall : Type :=
| CallGenerateContent (request : ContentGenerationRequest)
| CallAnalyzeImage (base64Image : string).

(** What a handler can read and change: the process-wide store, and the
    provider, seen through the calls it has received so far. The pipeline is
    the producer of [metadata], so the store's json column holds
    [Metadata] objects. *)
Record World : Type := {
  storage : MemStorage Metadata;
  provider_calls : list ProviderCall
}.

(** A JSON response body. *)
Inductive Body : Type :=
| ErrorBody (error : string)                      (* [{ error }] *)
| ContentBody (c : Content Metadata)              (* a content record *)
| GeneratedBody (id : Z) (g : GeneratedContent)   (* [{ id, ...generatedContent }] *)
| AnalysisBody (analysis : string).               (* [{ analysis }] *)

Record Response : Type := {
  status : Z;
  body : Body
}.

(** [res.json(b)] answers 200; [res.status(n).json(b)] answers [n]. *)
Definition json (b : Body) : Response := {| status := 200; body := b |}.
Definition status_json (n : Z) (b : Body) : Response :=
  {| status := n; body := b |}.

(** The body of an [async] handler: it runs on the world and either returns
    or throws; what it did to the world before throwing stays done. *)
Definition Handler (A : Type) : Type := World -> Outcome A * World.

Definition ret {A} (a : A) : Handler A := fun w => (Return a, w).

Definition bind {A B} (m : Handler A) (k : A -> Handler B) : Handler B :=
  fun w =>
    match m w with
    | (Return a, w') => k a w'
    | (Throw message, w') => (Throw message, w')
    end.

Notation "x <- m ;; k" := (bind m (fun x => k))
  (at level 61, m at next level, right associativity).

(** [try { body } catch (error) { handler }] around a handler that answers. *)
Definition try_catch (body : Handler Response)
    (handler : string -> Response) : World -> Response * World :=
  fun w =>
    match body w with
    | (Return r, w') => (r, w')
    | (Throw message, w') => (handler message, w')
    end.

Definition storage_createContent (insertContent : InsertContent Metadata)
    (now : Z) : Handler (Content Metadata) :=
  fun w =>
    let (saved, s') := createContent (storage w) insertContent now in
    (Return saved, {| storage := s'; provider_calls := provider_calls w |}).

(** [parseInt(req.params.id)] *)
Inductive parsed_int : Type :=
| NaN
| Int (z : Z).

(** No key of the map is [NaN], so looking one up finds nothing. *)
Definition storage_updateContent (id : parsed_int)
    (updates : ContentUpdates Metadata) : Handler (option (Content Metadata)) :=
  fun w =>
    match id with
    | NaN => (Return None, w)
    | Int z =>
        let (updated, s') := updateContent (storage w) z updates in
        (Return updated,
         {| storage := s'; provider_calls := provider_calls w |})
    end.

(** A text field of [req.body]: absent ([undefined]) or a string, which is
    how multer delivers the text parts of a multipart form. *)
Definition field := option string.

(** [!f] *)
Definition falsy (f : field) : bool :=
  match f with
  | None => true
  | Some s => String.eqb s EmptyString
  end.

(** The string a field holds once [!f] was seen false. *)
Definition text (f : field) : string :=
  match f with Some s => s | None => EmptyString end.

(** [req.body] and [req.files] of a generation request, as multer leaves
    them. *)
Record GenerateRequest : Type := {
  body_platform : field;
  body_contentType : field;
  body_brief : field;
  body_template : field;
  files : option (list (list Byte.byte))
}.

(** A required field is absent or the empty string. *)
Definition missing (f : field) : Prop := f = None \/ f = Some EmptyString.

(** The request passes the check of the required fields. *)
Definition valid (req : GenerateRequest) : Prop :=
  ~ missing (body_platform req) /\ ~ missing (body_contentType req)
  /\ ~ missing (body_brief req).

Section Handlers.
(** The provider adapter is an external collaborator: what a call answers
    is given from outside, the handlers only record that they called. *)
Variable generateContent_outcome :
  ContentGenerationRequest -> Outcome GeneratedContent.
Variable analyzeImage_outcome : string -> Outcome string.
(** [buffer.toString('base64')] *)
Variable base64 : list Byte.byte -> string.

Definition generateContent (request : ContentGenerationRequest)
    : Handler GeneratedContent :=
  fun w =>
    (generateContent_outcome request,
     {| storage := storage w;
        provider_calls :=
          provider_calls w ++ [CallGenerateContent request] |}).

Definition analyzeImage (base64Image : string) : Handler string :=
  fun w =>
    (analyzeImage_outcome base64Image,
     {| storage := storage w;
        provider_calls := provider_calls w ++ [CallAnalyzeImage base64Image] |}).

(** The images the handler collects from [req.files]. *)
Definition uploaded_images (req : GenerateRequest) : list string :=
  match files req with
  | Some fs => map base64 fs
  | None => []
  end.

(** The request the handler hands to the adapter. *)
Definition adapter_request (req : GenerateRequest) : ContentGenerationRequest :=
  {| req_platform := text (body_platform req);
     req_contentType := text (body_contentType req);
     req_brief := text (body_brief req);
     req_images := Some (uploaded_images req);
     req_template := body_template req |}.

(** The record the handler asks the store to create. *)
Definition record_to_save (req : GenerateRequest) (g : GeneratedContent)
    : InsertContent Metadata :=
  {| ins_userId := 1;
     ins_title := gc_title g;
     ins_description := Some (notnull (text (body_brief req)));
     ins_platform := text (body_platform req);
     ins_contentType := text (body_contentType req);
     ins_brief := text (body_brief req);
     ins_generatedContent := gc_content g;
     ins_images := Some (notnull []);
     ins_metadata := Some (gc_metadata g) |}.

(** [POST /api/content/generate]; [now] is the clock reading of
    [createContent], should the request get that far. *)
Definition generate_handler (now : Z) (req : GenerateRequest)
    : World -> Response * World :=
  try_catch
    (if falsy (body_platform req) || falsy (body_contentType req)
        || falsy (body_brief req)
     then
       ret (status_json 400
              (ErrorBody "Missing required fields: platform, contentType, brief"))
     else
       generatedContent <- generateContent (adapter_request req) ;;
       savedContent <-
         storage_createContent (record_to_save req generatedContent) now ;;
       ret (json (GeneratedBody (id savedContent) generatedContent)))
    (fun message =>
       status_json 500
         (ErrorBody ("Failed to generate content: " ++ message))).

(** [POST /api/images/analyze]; [file] is [req.file]. *)
Definition analyze_handler (file : option (list Byte.byte))
    : World -> Response * World :=
  try_catch
    (match file with
     | None => ret (status_json 400 (ErrorBody "No image file provided"))
     | Some buffer =>
         analysis <- analyzeImage (base64 buffer) ;;
         ret (json (AnalysisBody analysis))
     end)
    (fun message =>
       status_json 500
         (ErrorBody ("Failed to analyze image: " ++ message))).
End Handlers.

(** [PUT /api/content/:id]; [updates] is [req.body], passed on as it came. *)
Definition update_handler (id : parsed_int) (updates : ContentUpdates Metadata)
    : World -> Response * World :=
  try_catch
    (updated <- storage_updateContent id updates ;;
     match updated with
     | None => ret (status_json 404 (ErrorBody "Content not found"))
     | Some c => ret (json (ContentBody c))
     end)
    (fun _ => status_json 500 (ErrorBody "Failed to update content")).

(** ** The adapter's output normalisation

    [openai.ts] is present only as its interface declarations; the
    body of [generateContent] is described by the specification, section
    4.1. *)

(** Modelled from the spec: the provider's answer once parsed, before
    normalisation (the body of [generateContent] is missing from the
    sources). The provider may or may not report each metadata field,
    counts included. *)
Record ProviderResponse : Type := {
  pr_title : string;
  pr_content : string;
  pr_hashtags : list string;
  pr_estimatedDuration : option string;
  pr_wordCount : option Z;
  pr_characterCount : option Z;
  pr_tone : option string;
  pr_targetAudience : option string
}.

(** The ASCII characters JavaScript's [\s] matches. *)
Definition is_whitespace (c : ascii) : bool :=
  match nat_of_ascii c with
  | 9%nat | 10%nat | 11%nat | 12%nat | 13%nat | 32%nat => true
  | _ => false
  end.

(** [s === ""] *)
Definition is_empty (s : string) : bool :=
  match s with EmptyString => true | _ => false end.

(** Modelled from the spec: "splitting on whitespace" (the body of
    [generateContent] is missing). [current] is the token being read. *)
Fixpoint split_from (current : string) (s : string) : list string :=
  match s with
  | EmptyString =>
      match current with EmptyString => [] | _ => [current] end
  | String c s' =>
      if is_whitespace c then
        match current with
        | EmptyString => split_from EmptyString s'
        | _ => current :: split_from EmptyString s'
        end
      else split_from (current ++ String c EmptyString) s'
  end.

Definition split_whitespace (s : string) : list string :=
  split_from EmptyString s.

(** Modelled from the spec: output normalisation of [generateContent]
    (missing from the sources). Tone and audience default when the provider
    leaves them out, the duration stays absent, and the two counts are
    computed from the final content string. *)
Definition normalize (r : ProviderResponse) : GeneratedContent :=
  {| gc_title := pr_title r;
     gc_content := pr_content r;
     gc_hashtags := pr_hashtags r;
     gc_metadata :=
       {| estimatedDuration := pr_estimatedDuration r;
          wordCount := Z.of_nat (length (split_whitespace (pr_content r)));
          characterCount := Z.of_nat (String.length (pr_content r));
          tone :=
            match pr_tone r with Some t => t | None => "Professional" end;
          targetAudience :=
            match pr_targetAudience r with
            | Some a => a
            | None => "General"
            end |} |}.

(** Modelled from the spec: [generateContent] (its body is missing from the
    sources): one upstream call, no retry; an upstream failure, a timeout or
    an answer that does not parse is a failure of the adapter. *)
Definition generateContent_spec
    (upstream : ContentGenerationRequest -> Outcome ProviderResponse)
    (request : ContentGenerationRequest) : Outcome GeneratedContent :=
  match upstream request with
  | Return r => Return (normalize r)
  | Throw message => Throw message
  end.

(** The number of whitespace-delimited tokens of a string: the positions
    where a character that is not whitespace follows whitespace or starts
    the string. [inside] tells whether the previous character belonged to a
    token. *)
Fixpoint count_tokens (inside : bool) (s : string) : nat :=
  match s with
  | EmptyString => 0
  | String c s' =>
      if is_whitespace c then count_tokens false s'
      else ((if inside then 0 else 1) + count_tokens true s')%nat
  end.

Definition whitespace_tokens (s : string) : Z :=
  Z.of_nat (count_tokens false s).

(** ** Sequences of store operations *)

Section Runs.
Context {Json : Type}.

Inductive StoreOp : Type :=
| OpCreate (insertContent : InsertContent Json) (now : Z)
| OpUpdate (id : Z) (updates : ContentUpdates Json)
| OpDelete (id : Z).

(** One operation: the next store and, for a create, the record made. *)
Definition step (s : MemStorage Json) (op : StoreOp)
    : MemStorage Json * list (Content Json) :=
  match op with
  | OpCreate i now =>
      let (c, s') := createContent s i now in (s', [c])
  | OpUpdate k u => (snd (updateContent s k u), [])
  | OpDelete k => (snd (deleteContent s k), [])
  end.

(** A run: the final store and the records created on the way, oldest
    first. *)
Fixpoint run (s : MemStorage Json) (ops : list StoreOp)
    : MemStorage Json * list (Content Json) :=
  match ops with
  | [] => (s, [])
  | op :: ops' =>
      let (s1, made1) := step s op in
      let (s2, made2) := run s1 ops' in
      (s2, made1 ++ made2)
  end.

(** Every key in use is below the counter. *)
Definition keys_below_counter (s : MemStorage Json) : Prop :=
  Forall (fun k => k < currentContentId s) (JsMap.keys (content s)).

(** Each record is stored under its own [id]. *)
Definition ids_match_keys (s : MemStorage Json) : Prop :=
  Forall (fun e => id (snd e) = fst e) (content s).

(** An operation whose update object, if any, has the declared type. *)
Definition op_well_typed (op : StoreOp) : Prop :=
  match op with
  | OpUpdate _ updates => well_typed_updates updates
  | _ => True
  end.

(** An operation that brings no instant out of the range of a [Date]: a create
    reads the clock, an update names no [createdAt] or a valid one. *)
Definition op_valid_instant (op : StoreOp) : Prop :=
  match op with
  | OpCreate _ now => valid_instant now
  | OpUpdate _ updates =>
      match upd_createdAt updates with
      | Some t => valid_instant t
      | None => True
      end
  | OpDelete _ => True
  end.
End Runs.

(** ** Sample inputs *)

(** An insert payload for user 1 on the given platform. *)
Definition sample_insert {Json : Type} (p : string) : InsertContent Json :=
  {| ins_userId := 1;
     ins_title := "Launch";
     ins_description := None;
     ins_platform := p;
     ins_contentType := "post";
     ins_brief := "Announce the launch";
     ins_generatedContent := "We are live";
     ins_images := None;
     ins_metadata := None |}.

(** The server right after start, before any provider call. *)
Definition initial_world : World :=
  {| storage := new_MemStorage; provider_calls := [] |}.

Definition sample_request : GenerateRequest :=
  {| body_platform := Some "twitter"%string;
     body_contentType := Some "thread"%string;
     body_brief := Some "Announce the launch"%string;
     body_template := None;
     files := Some [] |}.

(** The same request with the brief left out. *)
Definition sample_request_without_brief : GenerateRequest :=
  {| body_platform := Some "twitter"%string;
     body_contentType := Some "thread"%string;
     body_brief := None;
     body_template := None;
     files := Some [] |}.

Definition sample_generated : GeneratedContent :=
  {| gc_title := "Launch day";
     gc_content := "We are live";
     gc_hashtags := ["#launch"%string];
     gc_metadata :=
       {| estimatedDuration := None;
          wordCount := 3;
          characterCount := 11;
          tone := "Professional";
          targetAudience := "General" |} |}.

(** A provider answer whose reported counts are wrong. *)
Definition sample_provider_response : ProviderResponse :=
  {| pr_title := "Launch day";
     pr_content := "We are  live ";
     pr_hashtags := [];
     pr_estimatedDuration := None;
     pr_wordCount := Some 40;
     pr_characterCount := Some 2;
     pr_tone := None;
     pr_targetAudience := None |}.

(** A request body for [PUT /api/content/:id] that names [id] and
    [createdAt]. *)
Definition sample_update_with_id : ContentUpdates Metadata :=
  {| upd_id := Some 99; upd_userId := None; upd_title := None;
     upd_description := None; upd_platform := None;
     upd_contentType := None; upd_brief := None;
     upd_generatedContent := None; upd_images := None;
     upd_metadata := None; upd_createdAt := Some 0 |}.

(** * The rest of the store, of the routes, and the upload form *)

(** Every value of the map sits under the key it names. *)
Definition keyed {V : Type} (key_of : V -> Z) (m : JsMap.t V) : Prop :=
  Forall (fun e => key_of (snd e) = fst e) m.

(** The number a counter of the counters object stands at; a key that is
    not there counts as 0. *)
Definition counted (x : option JsObject.value) : Z :=
  match x with
  | Some (JsObject.Num n) => n
  | _ => 0
  end.

(** How many of some records carry a given platform tag. *)
Definition records_on {Json : Type} (p : string) (l : list (Content Json)) : Z :=
  Z.of_nat (length (filter (fun c => String.eqb (platform c) p) l)).

(** ** [MemStorage], user methods

    The user map and its counter are fields of their own; the user methods
    touch nothing else, so they are modelled on these two fields. *)

Record User : Type := {
  user_id : Z;          (* [id] *)
  username : string;
  password : string
}.

Record InsertUser : Type := {
  ins_username : string;
  ins_password : string
}.

Record UserStorage : Type := {
  users : JsMap.t User;
  currentUserId : Z
}.

Definition new_UserStorage : UserStorage :=
  {| users := JsMap.empty; currentUserId := 1 |}.

Definition getUser (s : UserStorage) (id : Z) : option User :=
  JsMap.get id (users s).

(** [Array.from(this.users.values()).find(user => user.username === username)] *)
Definition getUserByUsername (s : UserStorage) (name : string) : option User :=
  find (fun user => String.eqb (username user) name) (JsMap.values (users s)).

Definition createUser (s : UserStorage) (insertUser : InsertUser)
    : User * UserStorage :=
  let id := currentUserId s in
  let user :=
    {| user_id := id;
       username := ins_username insertUser;
       password := ins_password insertUser |} in
  (user, {| users := JsMap.set id user (users s); currentUserId := id + 1 |}).

(** ** [MemStorage], template methods *)

Record ContentTemplate : Type := {
  tpl_id : Z;                                   (* [id] *)
  tpl_name : string;
  tpl_platform : string;
  tpl_contentType : string;
  tpl_template : string;
  tpl_description : option (nullable string)
}.

Record InsertContentTemplate : Type := {
  ins_tpl_name : string;
  ins_tpl_platform : string;
  ins_tpl_contentType : string;
  ins_tpl_template : string;
  ins_tpl_description : option (nullable string)
}.

Record TemplateStorage : Type := {
  contentTemplates : JsMap.t ContentTemplate;
  currentTemplateId : Z
}.

Definition createContentTemplate (s : TemplateStorage)
    (insertTemplate : InsertContentTemplate) : ContentTemplate * TemplateStorage :=
  let id := currentTemplateId s in
  let template :=
    {| tpl_id := id;
       tpl_name := ins_tpl_name insertTemplate;
       tpl_platform := ins_tpl_platform insertTemplate;
       tpl_contentType := ins_tpl_contentType insertTemplate;
       tpl_template := ins_tpl_template insertTemplate;
       tpl_description := ins_tpl_description insertTemplate |} in
  (template,
   {| contentTemplates := JsMap.set id template (contentTemplates s);
      currentTemplateId := id + 1 |}).

Definition getContentTemplates (s : TemplateStorage) : list ContentTemplate :=
  JsMap.values (contentTemplates s).

Definition getContentTemplatesByPlatform (s : TemplateStorage)
    (platform : string) : list ContentTemplate :=
  filter (fun template => String.eqb (tpl_platform template) platform)
    (JsMap.values (contentTemplates s)).

(** The line feed the source writes as a backslash followed by [n]. *)
Definition nl : string := String (ascii_of_nat 10) EmptyString.

Definition defaultTemplates : list InsertContentTemplate :=
  [ {| ins_tpl_name := "YouTube Tutorial";
       ins_tpl_platform := "youtube";
       ins_tpl_contentType := "script";
       ins_tpl_template :=
         "# {title}" ++ nl ++ nl ++ "## Introduction" ++ nl ++ "{intro}"
         ++ nl ++ nl ++ "## Main Content" ++ nl ++ "{content}"
         ++ nl ++ nl ++ "## Conclusion" ++ nl ++ "{conclusion}"
         ++ nl ++ nl ++ "## Call to Action" ++ nl ++ "{cta}";
       ins_tpl_description :=
         Some (notnull "Step-by-step tutorial format for YouTube videos"%string) |};
    {| ins_tpl_name := "Instagram Carousel";
       ins_tpl_platform := "instagram";
       ins_tpl_contentType := "carousel";
       ins_tpl_template :=
         "Slide 1: {hook}" ++ nl ++ "Slide 2: {point1}" ++ nl
         ++ "Slide 3: {point2}" ++ nl ++ "Slide 4: {point3}" ++ nl
         ++ "Slide 5: {cta}";
       ins_tpl_description :=
         Some (notnull "Multi-slide visual story for Instagram"%string) |};
    {| ins_tpl_name := "Twitter Thread";
       ins_tpl_platform := "twitter";
       ins_tpl_contentType := "thread";
       ins_tpl_template :=
         "1/ {hook}" ++ nl ++ nl ++ "2/ {point1}" ++ nl ++ nl
         ++ "3/ {point2}" ++ nl ++ nl ++ "4/ {point3}" ++ nl ++ nl
         ++ "5/ {conclusion}";
       ins_tpl_description :=
         Some (notnull "Multi-tweet storytelling format"%string) |};
    {| ins_tpl_name := "Facebook Post";
       ins_tpl_platform := "facebook";
       ins_tpl_contentType := "post";
       ins_tpl_template :=
         "{hook}" ++ nl ++ nl ++ "{content}" ++ nl ++ nl ++ "{cta}"
         ++ nl ++ nl ++ "{hashtags}";
       ins_tpl_description :=
         Some (notnull "Engaging Facebook post format"%string) |};
    {| ins_tpl_name := "LinkedIn Article";
       ins_tpl_platform := "linkedin";
       ins_tpl_contentType := "article";
       ins_tpl_template :=
         "# {title}" ++ nl ++ nl ++ "{intro}" ++ nl ++ nl ++ "## Key Points"
         ++ nl ++ "{points}" ++ nl ++ nl ++ "## Conclusion" ++ nl
         ++ "{conclusion}";
       ins_tpl_description :=
         Some (notnull "Professional LinkedIn article format"%string) |};
    {| ins_tpl_name := "TikTok Script";
       ins_tpl_platform := "tiktok";
       ins_tpl_contentType := "script";
       ins_tpl_template :=
         "Hook (0-3s): {hook}" ++ nl ++ "Content (3-15s): {content}" ++ nl
         ++ "CTA (15-30s): {cta}";
       ins_tpl_description :=
         Some (notnull "Short-form video script for TikTok"%string) |} ].

(** [templates.forEach(template => this.createContentTemplate(template))] *)
Definition createContentTemplates (s : TemplateStorage)
    (templates : list InsertContentTemplate) : TemplateStorage :=
  fold_left (fun s template => snd (createContentTemplate s template))
    templates s.

(** The template fields as the constructor leaves them: an empty map, the
    counter at 1, then [initializeTemplates]. *)
Definition initializeTemplates : TemplateStorage :=
  createContentTemplates
    {| contentTemplates := JsMap.empty; currentTemplateId := 1 |}
    defaultTemplates.

(** The insert payload a stored template was made from. *)
Definition template_payload (t : ContentTemplate) : InsertContentTemplate :=
  {| ins_tpl_name := tpl_name t;
     ins_tpl_platform := tpl_platform t;
     ins_tpl_contentType := tpl_contentType t;
     ins_tpl_template := tpl_template t;
     ins_tpl_description := tpl_description t |}.

(** [n, n + 1, ...], [len] numbers. *)
Fixpoint count_from (n : Z) (len : nat) : list Z :=
  match len with
  | O => []
  | S len' => n :: count_from (n + 1) len'
  end.

(** ** The other routes *)

(** What these routes answer with. *)
Inductive Payload : Type :=
| ErrorPayload (error : string)
| ContentPayload (c : Content Metadata)
| ContentListPayload (l : list (Content Metadata))
| TemplateListPayload (l : list ContentTemplate)
| StatsPayload (stats : ContentStats)
| OptimizedPayload (optimizedContent : string).   (* [{ optimizedContent }] *)

(** [res.status(n).json(p)], or [res.status(n).send()] with no body. *)
Inductive Reply : Type :=
| JsonReply (status : Z) (payload : Payload)
| EmptyReply (status : Z).

Definition reply_status (r : Reply) : Z :=
  match r with
  | JsonReply n _ => n
  | EmptyReply n => n
  end.

(** [try { body } catch (error) { handler }] for any kind of answer. *)
Definition try_catch_with {R : Type} (body : Handler R)
    (handler : string -> R) : World -> R * World :=
  fun w =>
    match body w with
    | (Return r, w') => (r, w')
    | (Throw message, w') => (handler message, w')
    end.

(** Reads of the store; a [NaN] id finds nothing. *)
Definition storage_getContentByUserId (uid : Z)
    : Handler (list (Content Metadata)) :=
  fun w => (Return (getContentByUserId (storage w) uid), w).

Definition storage_getContent (id : parsed_int)
    : Handler (option (Content Metadata)) :=
  fun w =>
    match id with
    | NaN => (Return None, w)
    | Int z => (Return (getContent (storage w) z), w)
    end.

Definition storage_getContentStats (uid : Z) : Handler ContentStats :=
  fun w => (Return (getContentStats (storage w) uid), w).

Definition storage_deleteContent (id : parsed_int) : Handler bool :=
  fun w =>
    match id with
    | NaN => (Return false, w)
    | Int z =>
        let (deleted, s') := deleteContent (storage w) z in
        (Return deleted,
         {| storage := s'; provider_calls := provider_calls w |})
    end.

(** The record an id of the route names, if any. *)
Definition found (id : parsed_int) (w : World) : option (Content Metadata) :=
  match id with
  | NaN => None
  | Int z => getContent (storage w) z
  end.

(** [GET /api/content] *)
Definition list_handler : World -> Reply * World :=
  try_catch_with
    (content <- storage_getContentByUserId 1 ;;
     ret (JsonReply 200 (ContentListPayload content)))
    (fun _ => JsonReply 500 (ErrorPayload "Failed to fetch content")).

(** [GET /api/content/:id] *)
Definition get_handler (id : parsed_int) : World -> Reply * World :=
  try_catch_with
    (content <- storage_getContent id ;;
     match content with
     | None => ret (JsonReply 404 (ErrorPayload "Content not found"))
     | Some c => ret (JsonReply 200 (ContentPayload c))
     end)
    (fun _ => JsonReply 500 (ErrorPayload "Failed to fetch content")).

(** [DELETE /api/content/:id] *)
Definition delete_handler (id : parsed_int) : World -> Reply * World :=
  try_catch_with
    (deleted <- storage_deleteContent id ;;
     if negb deleted
     then ret (JsonReply 404 (ErrorPayload "Content not found"))
     else ret (EmptyReply 204))
    (fun _ => JsonReply 500 (ErrorPayload "Failed to delete content")).

(** [GET /api/analytics/stats] *)
Definition stats_handler : World -> Reply * World :=
  try_catch_with
    (stats <- storage_getContentStats 1 ;;
     ret (JsonReply 200 (StatsPayload stats)))
    (fun _ => JsonReply 500 (ErrorPayload "Failed to fetch analytics")).

(** [GET /api/templates]; [platform] is [req.query.platform]. The templates
    are read, never written. *)
Definition templates_handler (platform : field) (s : TemplateStorage) : Reply :=
  JsonReply 200
    (TemplateListPayload
       (if falsy platform then getContentTemplates s
        else getContentTemplatesByPlatform s (text platform))).

(** [req.body] of [POST /api/content/optimize]. *)
Record OptimizeRequest : Type := {
  body_content : field;
  body_fromPlatform : field;
  body_toPlatform : field
}.

(** The arguments of one call of [optimizeContentForPlatform]. *)
Record OptimizeCall : Type := {
  call_content : string;
  call_fromPlatform : string;
  call_toPlatform : string
}.

(** [POST /api/content/optimize]. The route does not use the store; its
    world is the provider, seen through the optimisation calls received so
    far. *)
Definition optimize_handler
    (optimizeContentForPlatform_outcome : OptimizeCall -> Outcome string)
    (req : OptimizeRequest) (calls : list OptimizeCall)
    : Reply * list OptimizeCall :=
  if falsy (body_content req) || falsy (body_fromPlatform req)
     || falsy (body_toPlatform req)
  then
    (JsonReply 400
       (ErrorPayload "Missing required fields: content, fromPlatform, toPlatform"),
     calls)
  else
    let call :=
      {| call_content := text (body_content req);
         call_fromPlatform := text (body_fromPlatform req);
         call_toPlatform := text (body_toPlatform req) |} in
    match optimizeContentForPlatform_outcome call with
    | Return optimizedContent =>
        (JsonReply 200 (OptimizedPayload optimizedContent), calls ++ [call])
    | Throw message =>
        (JsonReply 500
           (ErrorPayload ("Failed to optimize content: " ++ message)),
         calls ++ [call])
    end.

(** ** The upload widget ([file-upload.tsx]) *)

Section FileUpload.
Context {File : Type}.

(** [l.slice(0, end)]: a negative [end] counts from the end of the list. *)
Definition slice_from_start (l : list File) (end_ : Z) : list File :=
  if end_ <? 0
  then firstn (Z.to_nat (Z.of_nat (length l) + end_)) l
  else firstn (Z.to_nat end_) l.

(** The next value of [files] after [onDrop(acceptedFiles)]. *)
Definition onDrop (files : list File) (maxFiles : Z)
    (acceptedFiles : list File) : list File :=
  slice_from_start (files ++ acceptedFiles) maxFiles.

(** [l.filter((_, i) => i !== index)], the positions counted from [i]. *)
Fixpoint filter_other_index (i index : Z) (l : list File) : list File :=
  match l with
  | [] => []
  | file :: l' =>
      if i =? index then filter_other_index (i + 1) index l'
      else file :: filter_other_index (i + 1) index l'
  end.

(** The next value of [files] after [removeFile(index)]. *)
Definition removeFile (files : list File) (index : Z) : list File :=
  filter_other_index 0 index files.

Inductive UploadAction : Type :=
| Drop (acceptedFiles : list File)
| Remove (index : Z).

Definition upload_step (maxFiles : Z) (files : list File) (a : UploadAction)
    : list File :=
  match a with
  | Drop acceptedFiles => onDrop files maxFiles acceptedFiles
  | Remove index => removeFile files index
  end.

(** The widget starts with no file. *)
Definition upload_run (maxFiles : Z) (actions : list UploadAction) : list File :=
  fold_left (upload_step maxFiles) actions [].
End FileUpload.

(** ** The content form (the component [ContentForm]) *)

Record ContentFormData : Type := {
  form_platform : string;
  form_contentType : string;
  form_brief : string;
  form_template : option string
}.

(** [contentFormSchema]: [min(1)], [min(1)], [min(10)], and an optional
    template. *)
Definition contentFormSchema (data : ContentFormData) : bool :=
  (1 <=? Z.of_nat (String.length (form_platform data)))
  && (1 <=? Z.of_nat (String.length (form_contentType data)))
  && (10 <=? Z.of_nat (String.length (form_brief data))).

(** The template the form sends: none when the field is empty. *)
Definition sent_template (data : ContentFormData) : option string :=
  match form_template data with
  | Some t => if String.eqb t EmptyString then None else Some t
  | None => None
  end.

(** A [File] as the browser holds it: its media type and its bytes. *)
Record UploadedFile : Type := {
  file_type : string;
  file_bytes : list Byte.byte
}.

(** One part of a [FormData]. *)
Inductive FormPart : Type :=
| TextPart (name value : string)
| FilePart (name : string) (file : UploadedFile).

(** The [FormData] that [mutationFn] builds; [images] is [data.images]. *)
Definition build_formData (data : ContentFormData)
    (images : option (list UploadedFile)) : list FormPart :=
  [ TextPart "platform" (form_platform data);
    TextPart "contentType" (form_contentType data);
    TextPart "brief" (form_brief data) ]
  ++ (match form_template data with
      | Some t => if String.eqb t EmptyString then [] else [TextPart "template" t]
      | None => []
      end)
  ++ (match images with
      | Some files => map (FilePart "images") files
      | None => []
      end).

(** The text part of a given name; the form holds each name at most once. *)
Fixpoint text_part (name : string) (parts : list FormPart) : field :=
  match parts with
  | [] => None
  | TextPart n v :: parts' =>
      if String.eqb n name then Some v else text_part name parts'
  | FilePart _ _ :: parts' => text_part name parts'
  end.

Fixpoint file_parts (name : string) (parts : list FormPart)
    : list UploadedFile :=
  match parts with
  | [] => []
  | FilePart n f :: parts' =>
      if String.eqb n name then f :: file_parts name parts'
      else file_parts name parts'
  | TextPart _ _ :: parts' => file_parts name parts'
  end.

Definition CR : ascii := ascii_of_nat 13.
Definition LF : ascii := ascii_of_nat 10.

(** A text value as the multipart encoding of the browser sends it: a
    carriage return that no line feed follows, and a line feed that no
    carriage return precedes, each become the pair CR LF. *)
Fixpoint multipart_text (value : string) : string :=
  match value with
  | EmptyString => EmptyString
  | String c rest =>
      if Ascii.eqb c CR then
        String CR
          (String LF
             match rest with
             | String c' rest' =>
                 if Ascii.eqb c' LF then multipart_text rest'
                 else multipart_text rest
             | EmptyString => EmptyString
             end)
      else if Ascii.eqb c LF then String CR (String LF (multipart_text rest))
      else String c (multipart_text rest)
  end.

(** No carriage return and no line feed. *)
Fixpoint single_line (value : string) : bool :=
  match value with
  | EmptyString => true
  | String c rest =>
      negb (Ascii.eqb c CR) && negb (Ascii.eqb c LF) && single_line rest
  end.

(** The multer configuration of the routes: [upload.array('images', 5)],
    [limits.fileSize] and [fileFilter]. *)
Definition maxCount : Z := 5.
Definition fileSize : Z := 10 * 1024 * 1024.

(** [file.mimetype.startsWith('image/')]: [true] is [cb(null, true)],
    [false] is [cb(new Error('Only image files are allowed'))]. *)
Definition fileFilter (mimetype : string) : bool :=
  String.prefix "image/" mimetype.

(** The size multer allows a field value by default (1MB). *)
Definition fieldSize : Z := 1024 * 1024.

(** A text value that stays below the field limit on the wire. *)
Definition text_within_limit (value : string) : Prop :=
  Z.of_nat (String.length (multipart_text value)) < fieldSize.

(** A form that multer lets through to the handler: at most five image
    parts, each passing the filter and smaller than the file limit, and
    every text value below the field limit. A form outside of these limits
    is refused by multer and the handler does not run. *)
Definition within_upload_limits (data : ContentFormData)
    (images : list UploadedFile) : Prop :=
  Z.of_nat (length images) <= maxCount
  /\ Forall (fun file =>
               fileFilter (file_type file) = true
               /\ Z.of_nat (length (file_bytes file)) < fileSize)
       images
  /\ text_within_limit (form_platform data)
  /\ text_within_limit (form_contentType data)
  /\ text_within_limit (form_brief data)
  /\ match sent_template data with
     | Some t => text_within_limit t
     | None => True
     end.

(** What [upload.array('images', 5)] hands the generation handler for a
    multipart form within the limits: the text parts, as they travelled, as
    [req.body], and the buffers of the parts named [images] as
    [req.files]. *)
Definition received (parts : list FormPart) : GenerateRequest :=
  {| body_platform := option_map multipart_text (text_part "platform" parts);
     body_contentType :=
       option_map multipart_text (text_part "contentType" parts);
     body_brief := option_map multipart_text (text_part "brief" parts);
     body_template := option_map multipart_text (text_part "template" parts);
     files := Some (map file_bytes (file_parts "images" parts)) |}.

(** ** More sample inputs *)

(** A store with two records of user 1, created at instants 1000 and 2000. *)
Definition sample_store : MemStorage unit :=
  snd (createContent
         (snd (createContent new_MemStorage (sample_insert "twitter") 1000))
         (sample_insert "youtube") 2000).

(** An update of the declared type that retitles a record. *)
Definition sample_retitle : ContentUpdates unit :=
  {| upd_id := None; upd_userId := None; upd_title := Some "Relaunch"%string;
     upd_description := None; upd_platform := None;
     upd_contentType := None; upd_brief := None;
     upd_generatedContent := None; upd_images := None;
     upd_metadata := None; upd_createdAt := None |}.

(** An update of the declared type that hands a record to user 2. *)
Definition sample_reassign : ContentUpdates unit :=
  {| upd_id := None; upd_userId := Some 2; upd_title := None;
     upd_description := None; upd_platform := None;
     upd_contentType := None; upd_brief := None;
     upd_generatedContent := None; upd_images := None;
     upd_metadata := None; upd_createdAt := None |}.

Definition sample_ops : list (@StoreOp unit) :=
  [ OpCreate (sample_insert "twitter") 1000;
    OpCreate (sample_insert "youtube") 2000;
    OpUpdate 2 sample_retitle;
    OpDelete 1;
    OpCreate (sample_insert "tiktok") 3000 ].

(** The server holding one record, with no provider call so far. *)
Definition sample_world : World :=
  {| storage := snd (createContent new_MemStorage (sample_insert "twitter") 1000);
     provider_calls := [] |}.

Definition sample_form : ContentFormData :=
  {| form_platform := "twitter";
     form_contentType := "thread";
     form_brief := "Announce the launch";
     form_template := Some EmptyString |}.

Definition sample_image : UploadedFile :=
  {| file_type := "image/png"; file_bytes := [Byte.x00; Byte.x01] |}.

Definition sample_optimize_request : OptimizeRequest :=
  {| body_content := Some "We are live"%string;
     body_fromPlatform := Some "twitter"%string;
     body_toPlatform := Some "linkedin"%string |}.

(** * Properties *)

(** ** The map *)

Module JsMapFacts.
Section Facts.
Context {V : Type}.
Implicit Types (m : JsMap.t V) (k : Z) (v : V).

Lemma get_set_same m k v : JsMap.get k (JsMap.set k v m) = Some v.
Proof.
  induction m as [| [k' v'] m IH]; simpl.
  - now rewrite Z.eqb_refl.
  - destruct (k =? k') eqn:E; simpl.
    + now rewrite Z.eqb_refl.
    + now rewrite E.
Qed.

Lemma get_set_other m k k' v :
  k' <> k -> JsMap.get k' (JsMap.set k v m) = JsMap.get k' m.
Proof.
  intros Hne. induction m as [| [k0 v0] m IH]; simpl.
  - destruct (k' =? k) eqn:E; [apply Z.eqb_eq in E; contradiction | easy].
  - destruct (k =? k0) eqn:E; simpl.
    + apply Z.eqb_eq in E. subst k0.
      destruct (k' =? k) eqn:E'; [apply Z.eqb_eq in E'; contradiction | easy].
    + now rewrite IH.
Qed.

Lemma get_delete_same m k : JsMap.get k (JsMap.delete k m) = None.
Proof.
  unfold JsMap.delete.
  induction m as [| [k' v'] m IH]; simpl; [easy |].
  destruct (k =? k') eqn:E; simpl; [easy |]. now rewrite E.
Qed.

Lemma get_delete_other m k k' :
  k' <> k -> JsMap.get k' (JsMap.delete k m) = JsMap.get k' m.
Proof.
  intros Hne. unfold JsMap.delete.
  induction m as [| [k0 v0] m IH]; simpl; [easy |].
  destruct (k =? k0) eqn:E; simpl.
  - apply Z.eqb_eq in E. subst k0.
    destruct (k' =? k) eqn:E'; [apply Z.eqb_eq in E'; contradiction | easy].
  - now rewrite IH.
Qed.

(** A present key is rewritten in place: same keys, same order. *)
Lemma keys_set_present m k v :
  JsMap.get k m <> None -> JsMap.keys (JsMap.set k v m) = JsMap.keys m.
Proof.
  induction m as [| [k' v'] m IH]; simpl; [congruence |].
  destruct (k =? k') eqn:E; simpl.
  - apply Z.eqb_eq in E. now subst.
  - intros H. now rewrite IH.
Qed.

(** A new key is appended. *)
Lemma set_absent m k v :
  JsMap.get k m = None -> JsMap.set k v m = m ++ [(k, v)].
Proof.
  induction m as [| [k' v'] m IH]; simpl; [easy |].
  destruct (k =? k'); [discriminate |].
  intros H. now rewrite IH.
Qed.

Lemma size_keys m : JsMap.size m = Z.of_nat (length (JsMap.keys m)).
Proof. unfold JsMap.size, JsMap.keys. now rewrite length_map. Qed.

Lemma size_set_present m k v :
  JsMap.get k m <> None -> JsMap.size (JsMap.set k v m) = JsMap.size m.
Proof. intros H. rewrite !size_keys. now rewrite keys_set_present. Qed.

Lemma get_In_keys m k v : JsMap.get k m = Some v -> In k (JsMap.keys m).
Proof.
  induction m as [| [k' v'] m IH]; simpl; [discriminate |].
  destruct (k =? k') eqn:E.
  - apply Z.eqb_eq in E. now left.
  - intros H. right. now apply IH.
Qed.

Lemma get_None_not_In m k : JsMap.get k m = None <-> ~ In k (JsMap.keys m).
Proof.
  induction m as [| [k' v'] m IH]; simpl; [tauto |].
  destruct (k =? k') eqn:E.
  - apply Z.eqb_eq in E. subst. split; [discriminate | intros H; destruct H; now left].
  - apply Z.eqb_neq in E. rewrite IH. split.
    + intros H [H1 | H1]; [congruence | contradiction].
    + intros H H1. apply H. now right.
Qed.

Lemma keys_set m k v :
  forall x, In x (JsMap.keys (JsMap.set k v m)) <-> x = k \/ In x (JsMap.keys m).
Proof.
  intros x. induction m as [| [k' v'] m IH]; simpl.
  - intuition.
  - destruct (k =? k') eqn:E; simpl.
    + apply Z.eqb_eq in E. subst. intuition.
    + rewrite IH. intuition.
Qed.

Lemma Forall_set (P : Z * V -> Prop) m k v :
  Forall P m -> P (k, v) -> Forall P (JsMap.set k v m).
Proof.
  intros Hm Hkv. induction Hm as [| [k' v'] m Hx Hm IH]; simpl.
  - now constructor.
  - destruct (k =? k'); constructor; assumption.
Qed.

Lemma Forall_delete (P : Z * V -> Prop) m k :
  Forall P m -> Forall P (JsMap.delete k m).
Proof.
  intros Hm. apply Forall_forall. intros e He.
  apply filter_In in He. rewrite Forall_forall in Hm. now apply Hm.
Qed.

Lemma keys_delete_filter m k :
  JsMap.keys (JsMap.delete k m)
  = filter (fun x => negb (k =? x)) (JsMap.keys m).
Proof.
  unfold JsMap.keys, JsMap.delete.
  induction m as [| [k' v'] m IH]; simpl; [reflexivity |].
  destruct (k =? k'); simpl; now rewrite IH.
Qed.

Lemma keys_delete m k :
  forall x, In x (JsMap.keys (JsMap.delete k m)) -> In x (JsMap.keys m).
Proof.
  intros x. unfold JsMap.delete, JsMap.keys. rewrite !in_map_iff.
  intros [e [He Hin]]. exists e. split; [easy |].
  now apply filter_In in Hin.
Qed.
End Facts.
End JsMapFacts.

(** ** The sort *)

Section SortFacts.
Context {A : Type}.

Lemma sort_insert_perm (cmp : A -> A -> Z) x l :
  Permutation (sort_insert cmp x l) (x :: l).
Proof.
  induction l as [| y l IH]; simpl; [apply Permutation_refl |].
  destruct (cmp x y <=? 0); [apply Permutation_refl |].
  eapply perm_trans; [apply perm_skip, IH | apply perm_swap].
Qed.

Lemma js_sort_perm (cmp : A -> A -> Z) l : Permutation (js_sort cmp l) l.
Proof.
  induction l as [| x l IH]; simpl; [constructor |].
  eapply perm_trans; [apply sort_insert_perm | now apply perm_skip].
Qed.

(** The sort only looks at the comparator on the elements it is given. *)
Lemma sort_insert_ext (cmp1 cmp2 : A -> A -> Z) x l :
  (forall y, In y l -> cmp1 x y = cmp2 x y) ->
  sort_insert cmp1 x l = sort_insert cmp2 x l.
Proof.
  induction l as [| y l IH]; intros H; simpl; [reflexivity |].
  rewrite (H y) by now left.
  destruct (cmp2 x y <=? 0); [reflexivity |].
  f_equal. apply IH. intros z Hz. apply H. now right.
Qed.

Lemma js_sort_ext (cmp1 cmp2 : A -> A -> Z) l :
  (forall x y, In x l -> In y l -> cmp1 x y = cmp2 x y) ->
  js_sort cmp1 l = js_sort cmp2 l.
Proof.
  induction l as [| x l IH]; intros H; simpl; [reflexivity |].
  rewrite IH by (intros a b Ha Hb; apply H; now right).
  apply sort_insert_ext. intros y Hy. apply H; [now left | right].
  eapply Permutation_in; [apply js_sort_perm | exact Hy].
Qed.

(** Rewriting the elements in a way the comparator does not see keeps the
    order. *)
Lemma js_sort_map_invariant (cmp : A -> A -> Z) (f : A -> A) l :
  (forall x y, cmp (f x) (f y) = cmp x y) ->
  js_sort cmp (map f l) = map f (js_sort cmp l).
Proof.
  intros Hf.
  assert (Hins : forall x l',
    sort_insert cmp (f x) (map f l') = map f (sort_insert cmp x l')).
  { intros x l'. induction l' as [| y l' IH]; simpl; [reflexivity |].
    rewrite Hf. destruct (cmp x y <=? 0); simpl; [reflexivity |].
    now rewrite IH. }
  induction l as [| x l IH]; simpl; [reflexivity |].
  now rewrite IH, Hins.
Qed.

(** Comparators of the shape [(a, b) => key(b) - key(a)]. *)
Variable key : A -> Z.
Let cmp : A -> A -> Z := fun a b => key b - key a.
Let descending : A -> A -> Prop := fun a b => key b <= key a.

Lemma sort_insert_descending x l :
  StronglySorted descending l ->
  StronglySorted descending (sort_insert cmp x l).
Proof.
  induction l as [| y l IH]; intros Hs; simpl.
  - constructor; constructor.
  - inversion Hs as [| ? ? Hl Hy]; subst.
    unfold cmp at 1. destruct (key y - key x <=? 0) eqn:E.
    + apply Z.leb_le in E. constructor; [assumption |].
      constructor; [unfold descending; lia |].
      eapply Forall_impl; [| exact Hy].
      unfold descending. intros; lia.
    + apply Z.leb_gt in E. constructor; [now apply IH |].
      eapply Permutation_Forall;
        [apply Permutation_sym, sort_insert_perm |].
      constructor; [unfold descending; lia | assumption].
Qed.

Lemma js_sort_descending l : StronglySorted descending (js_sort cmp l).
Proof.
  induction l as [| x l IH]; simpl; [constructor |].
  now apply sort_insert_descending.
Qed.

(** Stability: the elements of one key keep the order they had. *)
Lemma sort_insert_stable t x l :
  filter (fun a => key a =? t) (sort_insert cmp x l)
  = filter (fun a => key a =? t) (x :: l).
Proof.
  induction l as [| y l IH]; [reflexivity |].
  cbn [sort_insert]. unfold cmp at 1.
  destruct (key y - key x <=? 0) eqn:E; [reflexivity |].
  apply Z.leb_gt in E.
  cbn [filter] in *. rewrite IH.
  destruct (key x =? t) eqn:Ex, (key y =? t) eqn:Ey; try reflexivity.
  apply Z.eqb_eq in Ex, Ey. lia.
Qed.

Lemma js_sort_stable t l :
  filter (fun a => key a =? t) (js_sort cmp l)
  = filter (fun a => key a =? t) l.
Proof.
  induction l as [| x l IH]; [reflexivity |].
  cbn [js_sort]. rewrite sort_insert_stable. cbn [filter].
  now rewrite IH.
Qed.
(** Sortedness and stability leave no choice: whatever algorithm the engine
    runs, its result is the list computed here. *)
Lemma stable_descending_unique l1 : forall l2,
  StronglySorted descending l1 -> StronglySorted descending l2 ->
  (forall t, filter (fun a => key a =? t) l1
             = filter (fun a => key a =? t) l2) ->
  l1 = l2.
Proof.
  induction l1 as [| x l1 IH]; intros [| y l2] H1 H2 Hf.
  - reflexivity.
  - specialize (Hf (key y)). simpl in Hf. rewrite Z.eqb_refl in Hf.
    discriminate.
  - specialize (Hf (key x)). simpl in Hf. rewrite Z.eqb_refl in Hf.
    discriminate.
  - inversion H1 as [| ? ? Hs1 Hx]; inversion H2 as [| ? ? Hs2 Hy]; subst.
    rewrite Forall_forall in Hx, Hy.
    assert (Hxy : key x <= key y).
    { assert (Hin : In x (filter (fun a => key a =? key x) (y :: l2))).
      { rewrite <- Hf. simpl. rewrite Z.eqb_refl. now left. }
      apply filter_In in Hin. destruct Hin as [[-> | Hin] _]; [lia |].
      apply (Hy _ Hin). }
    assert (Hyx : key y <= key x).
    { assert (Hin : In y (filter (fun a => key a =? key y) (x :: l1))).
      { rewrite Hf. simpl. rewrite Z.eqb_refl. now left. }
      apply filter_In in Hin. destruct Hin as [[-> | Hin] _]; [lia |].
      apply (Hx _ Hin). }
    assert (Heq : key y = key x) by lia.
    pose proof (Hf (key x)) as Hhead. simpl in Hhead.
    rewrite Heq, Z.eqb_refl in Hhead. injection Hhead as -> Htail.
    f_equal. apply IH; try assumption.
    intros t. specialize (Hf t). simpl in Hf.
    destruct (key y =? t); [now injection Hf | assumption].
Qed.
End SortFacts.

(** ** The content store *)

Section StorageFacts.
Context {Json : Type}.
Implicit Types (s : MemStorage Json) (c : Content Json).

Lemma getTime_valid (t : Z) : valid_instant t -> getTime t = Some t.
Proof.
  unfold valid_instant, getTime. intros [H1 H2].
  apply Z.leb_le in H1, H2. now rewrite H1, H2.
Qed.

(** On valid instants the comparator is the difference of the instants. *)
Lemma getContentByUserId_valid s (uid : Z) :
  valid_instants s ->
  getContentByUserId s uid
  = js_sort (fun a b => createdAt b - createdAt a)
      (owned_in_insertion_order s uid).
Proof.
  intros Hv. unfold getContentByUserId, owned_in_insertion_order.
  apply js_sort_ext. intros a b Ha Hb.
  unfold valid_instants in Hv. rewrite Forall_forall in Hv.
  apply filter_In in Ha, Hb.
  unfold by_createdAt_desc.
  rewrite (getTime_valid _ (Hv _ (proj1 Ha))).
  now rewrite (getTime_valid _ (Hv _ (proj1 Hb))).
Qed.

(** C5. [getContentByUserId] returns exactly the owner's records (each as
    often as the map holds it); in a store whose records all carry a valid
    instant as [createdAt], the most recent [createdAt] comes first, and
    records with one and the same [createdAt] come in their insertion
    order. *)
Theorem getContentByUserId_newest_first s (uid : Z) :
  Permutation (getContentByUserId s uid) (owned_in_insertion_order s uid)
  /\ (forall c, In c (getContentByUserId s uid)
                <-> In c (JsMap.values (content s)) /\ userId c = uid)
  /\ (valid_instants s ->
      StronglySorted (fun a b => createdAt b <= createdAt a)
        (getContentByUserId s uid)
      /\ (forall t,
            filter (fun c => createdAt c =? t) (getContentByUserId s uid)
            = filter (fun c => createdAt c =? t)
                (owned_in_insertion_order s uid))).
Proof.
  split; [| split].
  - unfold getContentByUserId, owned_in_insertion_order. apply js_sort_perm.
  - unfold getContentByUserId.
    intros c. rewrite <- Z.eqb_eq, <- (filter_In (fun c => userId c =? uid)).
    split; apply Permutation_in;
      [apply js_sort_perm | apply Permutation_sym, js_sort_perm].
  - intros Hv. rewrite (getContentByUserId_valid s uid Hv). split.
    + apply (js_sort_descending createdAt).
    + intros t. apply (js_sort_stable createdAt).
Qed.

(** The example of the specification: records created at [t1 < t2 < t3]
    come back as [t3, t2, t1], and two records of one instant keep their
    insertion order. *)
Example getContentByUserId_three :
  let ins (t : string) : InsertContent unit :=
    {| ins_userId := 1; ins_title := t; ins_description := None;
       ins_platform := "twitter"; ins_contentType := "tweet";
       ins_brief := "b"; ins_generatedContent := "g";
       ins_images := None; ins_metadata := None |} in
  let s1 := snd (createContent new_MemStorage (ins "a"%string) 100) in
  let s2 := snd (createContent s1 (ins "b"%string) 200) in
  let s3 := snd (createContent s2 (ins "c"%string) 300) in
  let s4 := snd (createContent s3 (ins "d"%string) 200) in
  map id (getContentByUserId s3 1) = [3; 2; 1]
  /\ map id (getContentByUserId s4 1) = [3; 2; 4; 1].
Proof. split; reflexivity. Qed.

(** C6. After [createContent], [getContent] on the returned id gives the
    record [createContent] returned; after [deleteContent id], [getContent
    id] gives the not-found signal. *)
Theorem create_get_and_delete_get :
  (forall s (insertContent : InsertContent Json) (now : Z),
     getContent (snd (createContent s insertContent now))
       (id (fst (createContent s insertContent now)))
     = Some (fst (createContent s insertContent now)))
  /\ (forall s (k : Z), getContent (snd (deleteContent s k)) k = None).
Proof.
  split.
  - intros s i now. unfold getContent, createContent. simpl.
    apply JsMapFacts.get_set_same.
  - intros s k. unfold getContent, deleteContent. simpl.
    apply JsMapFacts.get_delete_same.
Qed.

(** C7. [updateContent] on an id that is not in the store returns the
    not-found signal and leaves the store as it was (no record is created,
    contents and size are unchanged); on a present id it returns and stores
    the existing record with exactly the provided keys replaced, in the
    same place, and touches no other record. *)
Theorem updateContent_miss_and_merge :
  (forall s (k : Z) (updates : ContentUpdates Json),
     getContent s k = None ->
     updateContent s k updates = (None, s)
     /\ content (snd (updateContent s k updates)) = content s
     /\ JsMap.size (content (snd (updateContent s k updates)))
        = JsMap.size (content s)
     /\ getContent (snd (updateContent s k updates)) k = None)
  /\ (forall s (k : Z) (updates : ContentUpdates Json) existing,
        getContent s k = Some existing ->
        exists updated,
          fst (updateContent s k updates) = Some updated
          /\ merged existing updates updated
          /\ getContent (snd (updateContent s k updates)) k = Some updated
          /\ (forall k', k' <> k ->
                getContent (snd (updateContent s k updates)) k'
                = getContent s k')
          /\ JsMap.keys (content (snd (updateContent s k updates)))
             = JsMap.keys (content s)
          /\ JsMap.size (content (snd (updateContent s k updates)))
             = JsMap.size (content s)
          /\ currentContentId (snd (updateContent s k updates))
             = currentContentId s).
Proof.
  split.
  - intros s k u H. unfold getContent in H. unfold updateContent, getContent.
    rewrite H. simpl. now rewrite H.
  - intros s k u existing H. unfold getContent in H.
    exists (spread existing u).
    unfold updateContent, getContent. rewrite H. simpl.
    split; [reflexivity |].
    split.
    { unfold merged, spread, spread_key, spread_opt. simpl.
      repeat split; reflexivity. }
    split; [apply JsMapFacts.get_set_same |].
    split; [intros k' Hne; now apply JsMapFacts.get_set_other |].
    split; [apply JsMapFacts.keys_set_present; congruence |].
    split; [apply JsMapFacts.size_set_present; congruence | reflexivity].
Qed.
End StorageFacts.

(** ** The counters object *)

Module JsObjectFacts.
Import JsObject.

Lemma own_None_keys k o : own k o = None <-> ~ In k (keys o).
Proof.
  induction o as [| [k' v'] o IH]; simpl; [tauto |].
  destruct (String.eqb k k') eqn:E.
  - apply String.eqb_eq in E. subst. split; [discriminate |].
    intros H. destruct H. now left.
  - apply String.eqb_neq in E. rewrite IH. split.
    + intros H [H1 | H1]; [congruence | contradiction].
    + intros H H1. apply H. now right.
Qed.

Lemma define_absent k v o : own k o = None -> define k v o = o ++ [(k, v)].
Proof.
  induction o as [| [k' v'] o IH]; simpl; [reflexivity |].
  destruct (String.eqb k k'); [discriminate |].
  intros H. now rewrite IH.
Qed.

Lemma keys_define_present k v o :
  own k o <> None -> keys (define k v o) = keys o.
Proof.
  induction o as [| [k' v'] o IH]; simpl; [congruence |].
  destruct (String.eqb k k') eqn:E; simpl.
  - apply String.eqb_eq in E. now subst.
  - intros H. now rewrite IH.
Qed.

Lemma sum_app_num o k n :
  sum (o ++ [(k, Num n)]) = option_map (fun t => t + n) (sum o).
Proof.
  induction o as [| [k' [m | s]] o IH]; simpl.
  - f_equal. lia.
  - rewrite IH. destruct (sum o); simpl; [f_equal; lia | reflexivity].
  - reflexivity.
Qed.

Lemma sum_define_present o k n m :
  own k o = Some (Num n) ->
  sum (define k (Num m) o) = option_map (fun t => t - n + m) (sum o).
Proof.
  induction o as [| [k' [n' | s']] o IH]; simpl; [discriminate | |].
  - destruct (String.eqb k k'); simpl.
    + intros [= ->]. destruct (sum o); simpl; [f_equal; lia | reflexivity].
    + intros H. rewrite IH by assumption.
      destruct (sum o); simpl; [f_equal; lia | reflexivity].
  - destruct (String.eqb k k'); simpl; [discriminate | reflexivity].
Qed.

Lemma own_define k v o k' :
  own k' (define k v o) = if String.eqb k' k then Some v else own k' o.
Proof.
  induction o as [| [k0 v0] o IH]; simpl.
  - reflexivity.
  - destruct (String.eqb k k0) eqn:E; simpl.
    + apply String.eqb_eq in E. subst k0.
      destruct (String.eqb k' k); reflexivity.
    + rewrite IH. destruct (String.eqb k' k) eqn:E'; [| reflexivity].
      apply String.eqb_eq in E'. subst k'. now rewrite E.
Qed.

Lemma inherited_None_not_proto k :
  inherited k = None -> String.eqb k "__proto__" = false.
Proof. unfold inherited. destruct (String.eqb k "__proto__"); easy. Qed.
End JsObjectFacts.

Section StatsFacts.
Context {Json : Type}.
Implicit Types (c : Content Json) (l : list (Content Json)).

(** One round of the [forEach] on an ordinary tag: a new key starts at 1,
    a present counter goes up by one. *)
Lemma count_platform_ordinary pc c :
  counters pc -> ordinary c ->
  counters (count_platform pc c)
  /\ (forall k, In k (JsObject.keys (count_platform pc c))
                <-> k = platform c \/ In k (JsObject.keys pc))
  /\ (NoDup (JsObject.keys pc) -> NoDup (JsObject.keys (count_platform pc c)))
  /\ JsObject.sum (count_platform pc c)
     = option_map (fun t => t + 1) (JsObject.sum pc).
Proof.
  intros Hc Hord. unfold ordinary in Hord.
  unfold count_platform, JsObject.set, JsObject.get.
  rewrite (JsObjectFacts.inherited_None_not_proto _ Hord), Hord.
  destruct (JsObject.own (platform c) pc) as [v |] eqn:Eown.
  - destruct (Hc _ _ Eown) as [n [-> Hn]]. simpl.
    assert ((n =? 0) = false) as -> by (apply Z.eqb_neq; lia).
    assert (Hpresent : JsObject.own (platform c) pc <> None) by congruence.
    split; [| split; [| split]].
    + intros k v. rewrite JsObjectFacts.own_define.
      destruct (String.eqb k (platform c)); [| apply Hc].
      intros [= <-]. exists (n + 1). split; [reflexivity | lia].
    + intros k. rewrite JsObjectFacts.keys_define_present by assumption.
      split; [now right |]. intros [-> | H]; [| assumption].
      destruct (in_dec string_dec (platform c) (JsObject.keys pc)) as [|Hn'];
        [assumption |].
      apply JsObjectFacts.own_None_keys in Hn'. congruence.
    + now rewrite JsObjectFacts.keys_define_present.
    + rewrite (JsObjectFacts.sum_define_present _ _ _ _ Eown).
      destruct (JsObject.sum pc); simpl; [f_equal; lia | reflexivity].
  - simpl. rewrite (JsObjectFacts.define_absent _ _ _ Eown).
    split; [| split; [| split]].
    + intros k v. rewrite <- (JsObjectFacts.define_absent _ _ _ Eown).
      rewrite JsObjectFacts.own_define.
      destruct (String.eqb k (platform c)); [| apply Hc].
      intros [= <-]. exists 1. split; [reflexivity | lia].
    + intros k. unfold JsObject.keys. rewrite map_app, in_app_iff. simpl.
      intuition.
    + intros Hnd. unfold JsObject.keys. rewrite map_app. simpl.
      apply NoDup_app; [assumption | repeat constructor; simpl; tauto |].
      intros x Hx [<- | []].
      now apply JsObjectFacts.own_None_keys in Eown.
    + apply JsObjectFacts.sum_app_num.
Qed.

Lemma fold_count_platform_ordinary l : forall pc,
  counters pc -> NoDup (JsObject.keys pc) ->
  Forall ordinary l ->
  NoDup (JsObject.keys (fold_left count_platform l pc))
  /\ (forall k, In k (JsObject.keys (fold_left count_platform l pc))
                <-> In k (map platform l) \/ In k (JsObject.keys pc))
  /\ JsObject.sum (fold_left count_platform l pc)
     = option_map (fun t => t + Z.of_nat (length l)) (JsObject.sum pc).
Proof.
  induction l as [| c l IH]; intros pc Hc Hnd Hord; simpl.
  - split; [assumption |]. split; [tauto |].
    destruct (JsObject.sum pc); simpl; [f_equal; lia | reflexivity].
  - inversion Hord as [| ? ? Hc1 Hl]; subst.
    destruct (count_platform_ordinary pc c Hc Hc1) as (Hc' & Hk & Hnd' & Hsum).
    destruct (IH _ Hc' (Hnd' Hnd) Hl) as (H1 & H2 & H3).
    split; [assumption |]. split.
    + intros k. rewrite H2, Hk. intuition.
    + rewrite H3, Hsum.
      destruct (JsObject.sum pc); simpl; [f_equal; lia | reflexivity].
Qed.

(** On an owner whose platform tags are all ordinary, the four statistics
    are the ones the specification describes. *)
Lemma getContentStats_ordinary (s : MemStorage Json) (uid : Z) :
  Forall ordinary (getContentByUserId s uid) ->
  totalContent (getContentStats s uid)
  = Z.of_nat (length (getContentByUserId s uid))
  /\ aiGenerated (getContentStats s uid) = totalContent (getContentStats s uid)
  /\ platforms (getContentStats s uid)
     = distinct_platforms (getContentByUserId s uid)
  /\ JsObject.sum (byPlatform (getContentStats s uid))
     = Some (totalContent (getContentStats s uid)).
Proof.
  intros Hord. unfold getContentStats. simpl.
  destruct (fold_count_platform_ordinary (getContentByUserId s uid) [])
    as (Hnd & Hk & Hsum); [intros k v; discriminate | constructor | assumption |].
  split; [reflexivity |]. split; [reflexivity |]. split.
  - unfold distinct_platforms. f_equal. apply Permutation_length.
    apply NoDup_Permutation; [assumption | apply NoDup_nodup |].
    intros k. rewrite Hk, nodup_In. simpl. tauto.
  - rewrite Hsum. reflexivity.
Qed.
End StatsFacts.

(** ** The generation pipeline *)

Section PipelineFacts.
Variable generateContent_outcome :
  ContentGenerationRequest -> Outcome GeneratedContent.
Variable base64 : list Byte.byte -> string.

Local Abbreviation handle := (generate_handler generateContent_outcome base64).
Local Abbreviation request_of := (adapter_request base64).

Lemma falsy_missing f : falsy f = true <-> missing f.
Proof.
  unfold falsy, missing. destruct f as [s |].
  - rewrite String.eqb_eq. split; [intros ->; now right |].
    intros [H | H]; congruence.
  - split; [now left | reflexivity].
Qed.

Lemma falsy_false_text f : falsy f = false -> f = Some (text f).
Proof. destruct f; [reflexivity | discriminate]. Qed.

Lemma valid_check req :
  valid req ->
  falsy (body_platform req) || falsy (body_contentType req)
  || falsy (body_brief req) = false.
Proof.
  intros (H1 & H2 & H3). rewrite <- falsy_missing in H1, H2, H3.
  destruct (falsy (body_platform req)), (falsy (body_contentType req)),
    (falsy (body_brief req)); simpl; congruence.
Qed.

(** The three ways a generation request can go. *)
Lemma generate_handler_rejects now req w :
  falsy (body_platform req) || falsy (body_contentType req)
  || falsy (body_brief req) = true ->
  handle now req w
  = (status_json 400
       (ErrorBody "Missing required fields: platform, contentType, brief"),
     w).
Proof. intros E. unfold generate_handler, try_catch. now rewrite E. Qed.

Lemma generate_handler_throws now req w message :
  valid req ->
  generateContent_outcome (request_of req) = Throw message ->
  handle now req w
  = (status_json 500 (ErrorBody ("Failed to generate content: " ++ message)),
     {| storage := storage w;
        provider_calls :=
          provider_calls w ++ [CallGenerateContent (request_of req)] |}).
Proof.
  intros Hv Hthrow. unfold generate_handler, try_catch.
  rewrite (valid_check _ Hv). unfold bind, generateContent.
  now rewrite Hthrow.
Qed.

Lemma generate_handler_returns now req w g :
  valid req ->
  generateContent_outcome (request_of req) = Return g ->
  handle now req w
  = (json (GeneratedBody (currentContentId (storage w)) g),
     {| storage := snd (createContent (storage w) (record_to_save req g) now);
        provider_calls :=
          provider_calls w ++ [CallGenerateContent (request_of req)] |}).
Proof.
  intros Hv Hret. unfold generate_handler, try_catch.
  rewrite (valid_check _ Hv). unfold bind, generateContent, storage_createContent.
  now rewrite Hret.
Qed.

(** C1. When the call to the provider adapter throws, the request is
    answered 500 with the adapter's message, the adapter was called once,
    and the store is the store from before the request: same content map,
    same record count. *)
Theorem generate_adapter_failure (now : Z) (req : GenerateRequest)
    (w : World) (message : string) :
  valid req ->
  generateContent_outcome (request_of req) = Throw message ->
  fst (handle now req w)
  = status_json 500 (ErrorBody ("Failed to generate content: " ++ message))
  /\ storage (snd (handle now req w)) = storage w
  /\ content (storage (snd (handle now req w))) = content (storage w)
  /\ JsMap.size (content (storage (snd (handle now req w))))
     = JsMap.size (content (storage w))
  /\ provider_calls (snd (handle now req w))
     = provider_calls w ++ [CallGenerateContent (request_of req)].
Proof.
  intros Hv Hthrow. rewrite (generate_handler_throws _ _ _ _ Hv Hthrow).
  repeat split.
Qed.

(** C2. When [platform], [contentType] or [brief] is absent or the empty
    string, the request is answered 400 and nothing else happens: the
    provider adapter receives no call and the store is untouched. *)
Theorem generate_missing_field (now : Z) (req : GenerateRequest) (w : World) :
  missing (body_platform req) \/ missing (body_contentType req)
  \/ missing (body_brief req) ->
  handle now req w
  = (status_json 400
       (ErrorBody "Missing required fields: platform, contentType, brief"),
     w)
  /\ provider_calls (snd (handle now req w)) = provider_calls w.
Proof.
  intros H.
  assert (E : falsy (body_platform req) || falsy (body_contentType req)
              || falsy (body_brief req) = true).
  { rewrite <- !falsy_missing in H. rewrite !orb_true_iff. tauto. }
  rewrite (generate_handler_rejects _ _ _ E). split; reflexivity.
Qed.

(** C8. When the adapter answers, the store creates one record under the
    next id with the instant read at creation, owned by user 1, with the
    brief as description, no images and the adapter's metadata; the answer
    is 200 with that id and the adapter's title, content, hashtags and
    metadata. *)
Theorem generate_persists (now : Z) (req : GenerateRequest) (w : World)
    (g : GeneratedContent) :
  valid req ->
  generateContent_outcome (request_of req) = Return g ->
  exists saved,
    createContent (storage w) (record_to_save req g) now
    = (saved, storage (snd (handle now req w)))
    /\ getContent (storage (snd (handle now req w)))
         (currentContentId (storage w)) = Some saved
    /\ id saved = currentContentId (storage w)
    /\ createdAt saved = now
    /\ userId saved = 1
    /\ Some (brief saved) = body_brief req
    /\ description saved = Some (notnull (brief saved))
    /\ images saved = Some (notnull [])
    /\ metadata saved = Some (gc_metadata g)
    /\ title saved = gc_title g
    /\ generatedContent saved = gc_content g
    /\ Some (platform saved) = body_platform req
    /\ Some (contentType saved) = body_contentType req
    /\ fst (handle now req w) = json (GeneratedBody (id saved) g)
    /\ provider_calls (snd (handle now req w))
       = provider_calls w ++ [CallGenerateContent (request_of req)].
Proof.
  intros Hv Hret.
  exists (fst (createContent (storage w) (record_to_save req g) now)).
  rewrite (generate_handler_returns _ _ _ _ Hv Hret). simpl.
  destruct Hv as (Hp & Hc & Hb). rewrite <- falsy_missing in Hp, Hc, Hb.
  apply not_true_is_false, falsy_false_text in Hp, Hc, Hb.
  split; [reflexivity |].
  split; [unfold getContent; simpl; apply JsMapFacts.get_set_same |].
  repeat (split; [first [reflexivity | now symmetry] |]).
  reflexivity.
Qed.
End PipelineFacts.

(** ** Metadata counts *)

Section CountFacts.

Lemma append_char_not_empty s c : is_empty (s ++ String c EmptyString) = false.
Proof. destruct s; reflexivity. Qed.

(** Splitting on whitespace yields as many pieces as the string has
    tokens; a token under way counts once it is closed. *)
Lemma split_from_count s : forall current,
  length (split_from current s)
  = (count_tokens (negb (is_empty current)) s
     + if is_empty current then 0 else 1)%nat.
Proof.
  induction s as [| c s IH]; intros current.
  - destruct current; reflexivity.
  - cbn [split_from count_tokens]. destruct (is_whitespace c).
    + destruct current as [| c0 current]; cbn [length is_empty negb].
      * rewrite IH. reflexivity.
      * rewrite IH. cbn [is_empty negb]. lia.
    + rewrite IH, append_char_not_empty. cbn [negb].
      destruct current; cbn [is_empty negb]; lia.
Qed.

Lemma split_whitespace_count s :
  Z.of_nat (length (split_whitespace s)) = whitespace_tokens s.
Proof.
  unfold split_whitespace, whitespace_tokens.
  rewrite split_from_count. cbn [is_empty negb]. f_equal. lia.
Qed.

(** C3. For a valid request that the provider answers, the response carries
    the provider's content, and its [wordCount] and [characterCount] are the
    number of whitespace-delimited tokens and the length of that very
    string, whatever counts the provider reported. *)
Theorem generate_counts_are_local
    (upstream : ContentGenerationRequest -> Outcome ProviderResponse)
    (base64 : list Byte.byte -> string)
    (now : Z) (req : GenerateRequest) (w : World) (r : ProviderResponse) :
  valid req ->
  upstream (adapter_request base64 req) = Return r ->
  exists g,
    fst (generate_handler (generateContent_spec upstream) base64 now req w)
    = json (GeneratedBody (currentContentId (storage w)) g)
    /\ gc_content g = pr_content r
    /\ wordCount (gc_metadata g) = whitespace_tokens (gc_content g)
    /\ characterCount (gc_metadata g)
       = Z.of_nat (String.length (gc_content g)).
Proof.
  intros Hv Hup. exists (normalize r).
  rewrite (generate_handler_returns _ _ now req w (normalize r) Hv).
  - simpl. repeat split. apply split_whitespace_count.
  - unfold generateContent_spec. now rewrite Hup.
Qed.
End CountFacts.

(** ** Image analysis *)

Section AnalyzeFacts.
Variable analyzeImage_outcome : string -> Outcome string.
Variable base64 : list Byte.byte -> string.

(** C10. Without an image part the request is answered 400 "No image file
    provided" and the world is untouched, so the analysis capability
    receives no call; an answer of 500 means an image part was present and
    the analysis call on it threw. *)
Theorem analyze_without_image :
  (forall w,
     analyze_handler analyzeImage_outcome base64 None w
     = (status_json 400 (ErrorBody "No image file provided"), w))
  /\ (forall file w,
        status (fst (analyze_handler analyzeImage_outcome base64 file w)) = 500 ->
        exists buffer message,
          file = Some buffer
          /\ analyzeImage_outcome (base64 buffer) = Throw message
          /\ provider_calls
               (snd (analyze_handler analyzeImage_outcome base64 file w))
             = provider_calls w ++ [CallAnalyzeImage (base64 buffer)]).
Proof.
  split; [reflexivity |].
  intros [buffer |] w; unfold analyze_handler, try_catch, bind, analyzeImage.
  - destruct (analyzeImage_outcome (base64 buffer)) as [a | message] eqn:E;
      simpl; [discriminate |].
    intros _. now exists buffer, message.
  - simpl. discriminate.
Qed.
End AnalyzeFacts.

(** ** Identifiers and creation instants *)

Section IdentityFacts.
Context {Json : Type}.
Implicit Types (s : MemStorage Json).

(** An update of the declared type leaves [id] and [createdAt] alone. *)
Lemma updateContent_well_typed s (k : Z) (updates : ContentUpdates Json)
    existing updated :
  well_typed_updates updates ->
  getContent s k = Some existing ->
  fst (updateContent s k updates) = Some updated ->
  id updated = id existing /\ createdAt updated = createdAt existing.
Proof.
  intros [Hid Hat] Hget. unfold getContent in Hget.
  unfold updateContent. rewrite Hget. simpl. intros [= <-].
  unfold spread. simpl. now rewrite Hid, Hat.
Qed.

Lemma step_counter s (op : StoreOp) :
  keys_below_counter s ->
  keys_below_counter (fst (step s op))
  /\ currentContentId s <= currentContentId (fst (step s op))
  /\ Forall (fun c => id c = currentContentId s
                      /\ id c < currentContentId (fst (step s op)))
       (snd (step s op)).
Proof.
  unfold keys_below_counter. intros H. rewrite Forall_forall in H.
  destruct op as [i now | k u | k]; simpl.
  - split; [| split; [lia | repeat constructor; simpl; lia]].
    apply Forall_forall. intros x Hx.
    apply JsMapFacts.keys_set in Hx. destruct Hx as [-> | Hx]; [lia |].
    specialize (H x Hx). lia.
  - split; [| split; [| constructor]].
    + unfold updateContent.
      destruct (JsMap.get k (content s)) eqn:E; simpl;
        apply Forall_forall; [| exact H].
      intros x Hx. apply JsMapFacts.keys_set in Hx.
      destruct Hx as [-> | Hx]; [| now apply H].
      apply H. eapply JsMapFacts.get_In_keys. eassumption.
    + unfold updateContent. destruct (JsMap.get k (content s)); simpl; lia.
  - split; [| split; [lia | constructor]].
    apply Forall_forall. intros x Hx. apply H.
    eapply JsMapFacts.keys_delete. eassumption.
Qed.


(** The map never holds a key twice, and under updates of the declared type
    every record stays under its own [id]: the stored ids are pairwise
    distinct. *)
Lemma step_keeps_ids s (op : StoreOp) :
  keys_below_counter s -> NoDup (JsMap.keys (content s)) ->
  NoDup (JsMap.keys (content (fst (step s op))))
  /\ (op_well_typed op -> ids_match_keys s -> ids_match_keys (fst (step s op))).
Proof.
  intros Hb Hnd. unfold ids_match_keys.
  destruct op as [i now | k u | k]; simpl.
  - split.
    + assert (Habs : JsMap.get (currentContentId s) (content s) = None).
      { apply JsMapFacts.get_None_not_In. intros Hin.
        unfold keys_below_counter in Hb. rewrite Forall_forall in Hb.
        specialize (Hb _ Hin). lia. }
      rewrite (JsMapFacts.set_absent _ _ _ Habs).
      unfold JsMap.keys. rewrite map_app. simpl.
      apply NoDup_app; [assumption | repeat constructor; simpl; tauto |].
      intros x Hx [<- | []].
      now apply JsMapFacts.get_None_not_In in Habs.
    + intros _ Hm. now apply JsMapFacts.Forall_set.
  - unfold updateContent.
    destruct (JsMap.get k (content s)) as [existing |] eqn:E; simpl.
    + split.
      * rewrite JsMapFacts.keys_set_present by congruence. assumption.
      * intros [Hid _] Hm. apply JsMapFacts.Forall_set; [assumption |].
        simpl. rewrite Hid. simpl.
        clear - E Hm. induction Hm as [| [k' v'] m Hx Hm IH];
          simpl in E; [discriminate |].
        destruct (k =? k') eqn:Ek.
        -- apply Z.eqb_eq in Ek. injection E as ->. simpl in Hx. congruence.
        -- now apply IH.
    + split; [assumption | tauto].
  - split.
    + rewrite JsMapFacts.keys_delete_filter. now apply NoDup_filter.
    + intros _ Hm. now apply JsMapFacts.Forall_delete.
Qed.

Lemma run_keeps_ids (ops : list StoreOp) : forall s,
  keys_below_counter s -> NoDup (JsMap.keys (content s)) -> ids_match_keys s ->
  Forall op_well_typed ops ->
  NoDup (JsMap.keys (content (fst (run s ops))))
  /\ ids_match_keys (fst (run s ops))
  /\ NoDup (map id (JsMap.values (content (fst (run s ops))))).
Proof.
  assert (Hids : forall s : MemStorage Json,
             NoDup (JsMap.keys (content s)) -> ids_match_keys s ->
             NoDup (map id (JsMap.values (content s)))).
  { intros s Hnd Hm. unfold ids_match_keys in Hm.
    replace (map id (JsMap.values (content s))) with (JsMap.keys (content s));
      [assumption |].
    unfold JsMap.keys, JsMap.values. rewrite map_map.
    apply map_ext_Forall. eapply Forall_impl; [| exact Hm].
    simpl. intros; congruence. }
  induction ops as [| op ops IH]; intros s Hb Hnd Hm Hty; simpl.
  - auto.
  - inversion Hty as [| ? ? Hop Hrest]; subst.
    destruct (step_counter s op Hb) as (Hb1 & _ & _).
    destruct (step_keeps_ids s op Hb Hnd) as (Hnd1 & Hm1).
    specialize (Hm1 Hop Hm).
    destruct (step s op) as [s1 made1]. simpl in *.
    specialize (IH s1 Hb1 Hnd1 Hm1 Hrest).
    destruct (run s1 ops) as [s2 made2]. exact IH.
Qed.

(** Valid instants stay valid: the store only ever holds the clock readings
    of [createContent] unless an update writes a [createdAt] of its own. *)
Lemma step_keeps_valid_instants s (op : StoreOp) :
  valid_instants s -> op_valid_instant op -> valid_instants (fst (step s op)).
Proof.
  unfold valid_instants, JsMap.values. rewrite !Forall_map.
  intros Hv Hop. destruct op as [i now | k u | k]; simpl in *.
  - apply JsMapFacts.Forall_set; assumption.
  - unfold updateContent.
    destruct (JsMap.get k (content s)) as [existing |] eqn:E; simpl;
      [| assumption].
    apply JsMapFacts.Forall_set; [assumption |]. simpl.
    destruct (upd_createdAt u); simpl; [assumption |].
    clear - E Hv. induction Hv as [| [k' v'] m Hx Hm IH];
      simpl in E; [discriminate |].
    destruct (k =? k'); [injection E as <-; exact Hx | now apply IH].
  - now apply JsMapFacts.Forall_delete.
Qed.

Lemma run_keeps_valid_instants (ops : list StoreOp) : forall s,
  valid_instants s -> Forall op_valid_instant ops ->
  valid_instants (fst (run s ops)).
Proof.
  induction ops as [| op ops IH]; intros s Hv Hops; simpl; [assumption |].
  inversion Hops as [| ? ? Hop Hrest]; subst.
  pose proof (step_keeps_valid_instants s op Hv Hop) as H1.
  destruct (step s op) as [s1 made1]. simpl in H1.
  specialize (IH s1 H1 Hrest). now destruct (run s1 ops).
Qed.

Lemma new_MemStorage_keys_below_counter :
  keys_below_counter (@new_MemStorage Json).
Proof. constructor. Qed.
End IdentityFacts.

(** ** Checks on concrete inputs *)

(** C4 at a store whose only record carries the platform tag [__proto__]:
    the owner has one record and one distinct platform, yet the counters
    object stays empty, so [platforms] is 0 and the counts sum to 0. *)
Theorem getContentStats_proto_platform :
  let s : MemStorage unit :=
    snd (createContent new_MemStorage (sample_insert "__proto__") 1000) in
  map platform (getContentByUserId s 1) = ["__proto__"%string]
  /\ totalContent (getContentStats s 1) = 1
  /\ distinct_platforms (getContentByUserId s 1) = 1
  /\ platforms (getContentStats s 1) = 0
  /\ byPlatform (getContentStats s 1) = []
  /\ JsObject.sum (byPlatform (getContentStats s 1)) = Some 0.
Proof. repeat split. Qed.

(** A tag that names a function of [Object.prototype] makes its counter a
    string. *)
Example getContentStats_constructor_platform :
  let s : MemStorage unit :=
    snd (createContent new_MemStorage (sample_insert "constructor") 1000) in
  totalContent (getContentStats s 1) = 1
  /\ byPlatform (getContentStats s 1)
     = [("constructor"%string,
         JsObject.Str "function Object() { [native code] }1")]
  /\ JsObject.sum (byPlatform (getContentStats s 1)) = None.
Proof. repeat split. Qed.

(** On ordinary tags the statistics count as described. *)
Example getContentStats_two_platforms :
  let s1 : MemStorage unit :=
    snd (createContent new_MemStorage (sample_insert "twitter") 1000) in
  let s2 := snd (createContent s1 (sample_insert "youtube") 2000) in
  let s3 := snd (createContent s2 (sample_insert "twitter") 3000) in
  getContentStats s3 1
  = {| totalContent := 3; aiGenerated := 3; platforms := 2;
       byPlatform := [("twitter"%string, JsObject.Num 2);
                      ("youtube"%string, JsObject.Num 1)] |}.
Proof. reflexivity. Qed.

(** C9 at [PUT /api/content/1] with the body [{"id": 99, "createdAt": 0}]
    on a store holding record 1 created at instant 1000: the answer is 200
    and the record under key 1 now says [id = 99] and [createdAt = 0]. *)
Theorem update_handler_overwrites_id :
  let w0 : World :=
    {| storage := snd (createContent new_MemStorage (sample_insert "twitter") 1000);
       provider_calls := [] |} in
  let answer := update_handler (Int 1) sample_update_with_id w0 in
  option_map id (getContent (storage w0) 1) = Some 1
  /\ option_map createdAt (getContent (storage w0) 1) = Some 1000
  /\ status (fst answer) = 200
  /\ option_map id (getContent (storage (snd answer)) 1) = Some 99
  /\ option_map createdAt (getContent (storage (snd answer)) 1) = Some 0.
Proof. repeat split. Qed.

(** ** Instances *)

Lemma sample_request_valid : valid sample_request.
Proof. unfold valid, missing. simpl. intuition discriminate. Defined.

Lemma generate_adapter_failure_witness :
  fst (generate_handler (fun _ => Throw "upstream timeout") (fun _ => EmptyString)
         1000 sample_request initial_world)
  = status_json 500 (ErrorBody "Failed to generate content: upstream timeout")
  /\ storage (snd (generate_handler (fun _ => Throw "upstream timeout")
                     (fun _ => EmptyString) 1000 sample_request initial_world))
     = new_MemStorage.
Proof.
  pose proof (generate_adapter_failure (fun _ => Throw "upstream timeout")
                (fun _ => EmptyString) 1000 sample_request initial_world
                "upstream timeout" sample_request_valid eq_refl) as H.
  split; [exact (proj1 H) | exact (proj1 (proj2 H))].
Defined.

Lemma generate_missing_field_witness :
  generate_handler (fun _ => Return sample_generated) (fun _ => EmptyString)
    1000 sample_request_without_brief initial_world
  = (status_json 400
       (ErrorBody "Missing required fields: platform, contentType, brief"),
     initial_world).
Proof.
  refine (proj1 (generate_missing_field (fun _ => Return sample_generated)
                   (fun _ => EmptyString) 1000 sample_request_without_brief
                   initial_world _)).
  right. right. left. reflexivity.
Defined.

Lemma generate_counts_are_local_witness :
  exists g,
    fst (generate_handler
           (generateContent_spec (fun _ => Return sample_provider_response))
           (fun _ => EmptyString) 1000 sample_request initial_world)
    = json (GeneratedBody 1 g)
    /\ gc_content g = "We are  live "%string
    /\ wordCount (gc_metadata g) = 3
    /\ characterCount (gc_metadata g) = 13.
Proof.
  destruct (generate_counts_are_local (fun _ => Return sample_provider_response)
              (fun _ => EmptyString) 1000 sample_request initial_world
              sample_provider_response sample_request_valid eq_refl)
    as (g & H1 & H2 & H3 & H4).
  exists g. split; [exact H1 |]. split; [exact H2 |].
  rewrite H3, H4, H2. split; reflexivity.
Defined.

Lemma sample_store_valid_instants : valid_instants sample_store.
Proof.
  unfold valid_instants, valid_instant, max_instant. simpl.
  repeat constructor; simpl; lia.
Defined.

Lemma getContentByUserId_newest_first_witness :
  StronglySorted (fun a b : Content unit => createdAt b <= createdAt a)
    (getContentByUserId sample_store 1)
  /\ map createdAt (getContentByUserId sample_store 1) = [2000; 1000].
Proof.
  split; [| reflexivity].
  exact (proj1 (proj2 (proj2 (getContentByUserId_newest_first sample_store 1))
                  sample_store_valid_instants)).
Defined.

(** A miss with a payload that carries a title, and a hit that retitles
    the first of two records. *)
Lemma updateContent_miss_and_merge_witness :
  (updateContent sample_store 7 sample_retitle = (None, sample_store)
   /\ JsMap.size (content (snd (updateContent sample_store 7 sample_retitle))) = 2
   /\ getContent (snd (updateContent sample_store 7 sample_retitle)) 7 = None)
  /\ exists updated,
       fst (updateContent sample_store 1 sample_retitle) = Some updated
       /\ getContent (snd (updateContent sample_store 1 sample_retitle)) 1
          = Some updated
       /\ title updated = "Relaunch"%string
       /\ platform updated = "twitter"%string
       /\ id updated = 1
       /\ createdAt updated = 1000
       /\ getContent (snd (updateContent sample_store 1 sample_retitle)) 2
          = getContent sample_store 2
       /\ JsMap.size (content (snd (updateContent sample_store 1 sample_retitle)))
          = 2.
Proof.
  split.
  - destruct (proj1 (@updateContent_miss_and_merge unit)
                sample_store 7 sample_retitle eq_refl)
      as (Hmiss & _ & Hsize & Hget).
    split; [exact Hmiss |]. split; [exact Hsize | exact Hget].
  - destruct (proj2 (@updateContent_miss_and_merge unit)
                sample_store 1 sample_retitle _ eq_refl)
      as (updated & Hfst & Hm & Hget & Hother & _ & Hsize & _).
    destruct Hm as (Hid & _ & Htitle & _ & Hplatform & _ & _ & _ & _ & _ & Hat).
    exists updated.
    split; [exact Hfst |]. split; [exact Hget |].
    split; [exact Htitle |]. split; [exact Hplatform |].
    split; [exact Hid |]. split; [exact Hat |].
    split; [apply Hother; discriminate | exact Hsize].
Defined.

Lemma generate_persists_witness :
  exists saved,
    getContent
      (storage (snd (generate_handler (fun _ => Return sample_generated)
                       (fun _ => EmptyString) 1000 sample_request initial_world)))
      1 = Some saved
    /\ id saved = 1 /\ createdAt saved = 1000 /\ userId saved = 1.
Proof.
  destruct (generate_persists (fun _ => Return sample_generated)
              (fun _ => EmptyString) 1000 sample_request initial_world
              sample_generated sample_request_valid eq_refl)
    as (saved & _ & Hget & Hid & Hat & Hu & _).
  exists saved. repeat split; assumption.
Defined.

Lemma analyze_without_image_witness :
  status (fst (analyze_handler (fun _ => Throw "rate limited")
                 (fun _ => EmptyString) (Some [Byte.x00]) initial_world))
  = 500
  /\ exists buffer,
       Some [Byte.x00] = Some buffer
       /\ provider_calls
            (snd (analyze_handler (fun _ => Throw "rate limited")
                    (fun _ => EmptyString) (Some [Byte.x00]) initial_world))
          = [CallAnalyzeImage EmptyString].
Proof.
  split; [reflexivity |].
  destruct (proj2 (analyze_without_image (fun _ => Throw "rate limited")
                     (fun _ => EmptyString))
              (Some [Byte.x00]) initial_world eq_refl)
    as (buffer & message & H1 & _ & H3).
  exists buffer. split; [exact H1 | exact H3].
Defined.

(** * Further properties *)

(** ** How the sort composes *)

Section SortComposition.
Context {A : Type}.

Lemma filter_swap (f g : A -> bool) l :
  filter f (filter g l) = filter g (filter f l).
Proof.
  induction l as [| x l IH]; [reflexivity |]. simpl.
  destruct (f x) eqn:Ef, (g x) eqn:Eg; simpl; rewrite ?Ef, ?Eg, IH; reflexivity.
Qed.

Lemma filter_map_preserved (p : A -> bool) (f : A -> A) l :
  (forall x, p (f x) = p x) -> filter p (map f l) = map f (filter p l).
Proof.
  intros Hp. induction l as [| x l IH]; [reflexivity |]. simpl.
  rewrite Hp. destruct (p x); simpl; now rewrite IH.
Qed.

Lemma StronglySorted_filter (R : A -> A -> Prop) (p : A -> bool) l :
  StronglySorted R l -> StronglySorted R (filter p l).
Proof.
  induction 1 as [| x l Hs IH Hx]; simpl; [constructor |].
  destruct (p x); [| assumption]. constructor; [assumption |].
  rewrite Forall_forall in *. intros y Hy. apply Hx.
  now apply filter_In in Hy.
Qed.

Variable key : A -> Z.
Local Abbreviation cmp := (fun a b : A => key b - key a).
Local Abbreviation descending := (fun a b : A => key b <= key a).

(** Sorting a selection is selecting from the sorted list. *)
Lemma js_sort_filter (p : A -> bool) l :
  js_sort cmp (filter p l) = filter p (js_sort cmp l).
Proof.
  apply (stable_descending_unique key).
  - apply js_sort_descending.
  - apply StronglySorted_filter, js_sort_descending.
  - intros t. rewrite js_sort_stable, (filter_swap _ p (js_sort cmp l)).
    rewrite js_sort_stable. apply filter_swap.
Qed.

(** Rewriting records without touching their keys keeps the order. *)
Lemma js_sort_map (f : A -> A) l :
  (forall x, key (f x) = key x) ->
  js_sort cmp (map f l) = map f (js_sort cmp l).
Proof.
  intros Hk. apply (stable_descending_unique key).
  - apply js_sort_descending.
  - pose proof (js_sort_descending key l) as Hs.
    induction Hs as [| x l' Hs IH Hx]; simpl; constructor; [assumption |].
    rewrite Forall_map. eapply Forall_impl; [| exact Hx].
    simpl. intros a Ha. now rewrite !Hk.
  - intros t. rewrite js_sort_stable.
    rewrite !(filter_map_preserved (fun a => key a =? t) f)
      by (intros x; now rewrite Hk).
    now rewrite js_sort_stable.
Qed.

(** An element newer than all the others, appended last, sorts first. *)
Lemma js_sort_newest x l :
  Forall (fun a => key a < key x) l ->
  js_sort cmp (l ++ [x]) = x :: js_sort cmp l.
Proof.
  intros Hx. apply (stable_descending_unique key).
  - apply js_sort_descending.
  - constructor; [apply js_sort_descending |].
    eapply Permutation_Forall; [apply Permutation_sym, js_sort_perm |].
    eapply Forall_impl; [| exact Hx]. simpl. intros; lia.
  - intros t. rewrite js_sort_stable, filter_app. simpl.
    rewrite js_sort_stable.
    destruct (key x =? t) eqn:E; [| apply app_nil_r].
    apply Z.eqb_eq in E.
    replace (filter (fun a => key a =? t) l) with (@nil A); [reflexivity |].
    symmetry. clear - Hx E. induction Hx as [| a l Ha Hl IH]; [reflexivity |].
    simpl. destruct (key a =? t) eqn:Ea; [apply Z.eqb_eq in Ea; lia | exact IH].
Qed.
End SortComposition.

(** ** The values of a map after a write *)

Section ValuesFacts.
Context {V : Type}.
Variable key_of : V -> Z.
Implicit Types (m : JsMap.t V).

Lemma values_set_absent m k v :
  JsMap.get k m = None -> JsMap.values (JsMap.set k v m) = JsMap.values m ++ [v].
Proof.
  intros H. rewrite (JsMapFacts.set_absent _ _ _ H).
  unfold JsMap.values. now rewrite map_app.
Qed.

Lemma values_delete m k :
  keyed key_of m ->
  JsMap.values (JsMap.delete k m)
  = filter (fun v => negb (k =? key_of v)) (JsMap.values m).
Proof.
  unfold JsMap.values, JsMap.delete.
  induction 1 as [| [k' v'] m Hx Hm IH]; [reflexivity |].
  simpl in *. rewrite Hx. destruct (k =? k'); simpl; now rewrite IH.
Qed.

Lemma values_set_present m k (f : V -> V) existing :
  keyed key_of m -> NoDup (JsMap.keys m) ->
  JsMap.get k m = Some existing ->
  JsMap.values (JsMap.set k (f existing) m)
  = map (fun v => if key_of v =? k then f v else v) (JsMap.values m).
Proof.
  unfold JsMap.values.
  induction 1 as [| [k' v'] m Hx Hm IH]; simpl; [discriminate |].
  intros Hnd Hget. inversion Hnd as [| ? ? Hnotin Hnd']; subst.
  simpl in Hx. rewrite Hx. rewrite (Z.eqb_sym k' k).
  destruct (k =? k') eqn:E; simpl.
  - injection Hget as ->. f_equal. apply Z.eqb_eq in E. subst k.
    clear - Hm Hnotin. induction Hm as [| [k0 v0] m Hx Hm IH]; [reflexivity |].
    simpl in *. rewrite Hx.
    destruct (k0 =? k') eqn:E0; [apply Z.eqb_eq in E0; tauto |].
    f_equal. apply IH. tauto.
  - f_equal. now apply IH.
Qed.

Lemma length_delete_present m k existing :
  NoDup (JsMap.keys m) -> JsMap.get k m = Some existing ->
  S (length (JsMap.delete k m)) = length m.
Proof.
  unfold JsMap.delete.
  induction m as [| [k' v'] m IH]; simpl; [discriminate |].
  intros Hnd Hget. inversion Hnd as [| ? ? Hnotin Hnd']; subst.
  destruct (k =? k') eqn:E; simpl.
  - apply Z.eqb_eq in E. subst k'. f_equal.
    f_equal. clear - Hnotin. induction m as [| [k0 v0] m IH]; [reflexivity |].
    simpl in *. destruct (k =? k0) eqn:E0; [apply Z.eqb_eq in E0; subst; tauto |].
    simpl. f_equal. apply IH. tauto.
  - f_equal. now apply IH.
Qed.

Lemma delete_absent m k : JsMap.get k m = None -> JsMap.delete k m = m.
Proof.
  unfold JsMap.delete.
  induction m as [| [k' v'] m IH]; simpl; [reflexivity |].
  destruct (k =? k'); [discriminate |]. simpl. intros H. now rewrite IH.
Qed.
End ValuesFacts.

Lemma In_set {V : Type} (m : JsMap.t V) k v : In (k, v) (JsMap.set k v m).
Proof.
  induction m as [| [k' v'] m IH]; simpl; [now left |].
  destruct (k =? k'); simpl; [now left | now right].
Qed.

Lemma get_of_In {V : Type} (m : JsMap.t V) k v :
  NoDup (JsMap.keys m) -> In (k, v) m -> JsMap.get k m = Some v.
Proof.
  induction m as [| [k' v'] m IH]; simpl; [tauto |].
  intros Hnd [Heq | Hin]; inversion Hnd as [| ? ? Hnotin Hnd']; subst.
  - injection Heq as -> ->. now rewrite Z.eqb_refl.
  - destruct (k =? k') eqn:E; [| now apply IH].
    apply Z.eqb_eq in E. subst k'. exfalso. apply Hnotin.
    unfold JsMap.keys. apply in_map_iff. now exists (k, v).
Qed.

(** ** Composing the content methods *)

Section ContentComposition.
Context {Json : Type}.
Implicit Types (s : MemStorage Json) (c : Content Json).

Lemma fresh_counter s :
  keys_below_counter s -> JsMap.get (currentContentId s) (content s) = None.
Proof.
  intros Hb. apply JsMapFacts.get_None_not_In. intros Hin.
  unfold keys_below_counter in Hb. rewrite Forall_forall in Hb.
  specialize (Hb _ Hin). lia.
Qed.

Lemma createContent_grows s (insertContent : InsertContent Json) (now : Z) :
  keys_below_counter s ->
  JsMap.size (content (snd (createContent s insertContent now)))
  = JsMap.size (content s) + 1
  /\ keys_below_counter (snd (createContent s insertContent now)).
Proof.
  intros Hb. pose proof (fresh_counter s Hb) as Hfresh. split.
  - simpl. unfold JsMap.size. rewrite (JsMapFacts.set_absent _ _ _ Hfresh).
    rewrite length_app. simpl. lia.
  - exact (proj1 (step_counter s (OpCreate insertContent now) Hb)).
Qed.

(** X1. In a store whose keys are below the counter, [createContent] adds
    exactly one record, last in the map and under an id that was free; the
    size grows by one, every other id reads as before, and the counter moves
    on by one. *)
Theorem createContent_adds_one s (insertContent : InsertContent Json) (now : Z) :
  keys_below_counter s ->
  getContent s (id (fst (createContent s insertContent now))) = None
  /\ JsMap.values (content (snd (createContent s insertContent now)))
     = JsMap.values (content s) ++ [fst (createContent s insertContent now)]
  /\ JsMap.size (content (snd (createContent s insertContent now)))
     = JsMap.size (content s) + 1
  /\ (forall k, k <> id (fst (createContent s insertContent now)) ->
        getContent (snd (createContent s insertContent now)) k = getContent s k)
  /\ currentContentId (snd (createContent s insertContent now))
     = currentContentId s + 1
  /\ keys_below_counter (snd (createContent s insertContent now)).
Proof.
  intros Hb. pose proof (fresh_counter s Hb) as Hfresh.
  unfold getContent. simpl.
  split; [assumption |].
  split; [now apply values_set_absent |].
  split.
  { unfold JsMap.size. rewrite (JsMapFacts.set_absent _ _ _ Hfresh).
    rewrite length_app. simpl. lia. }
  split; [intros k Hk; now apply JsMapFacts.get_set_other |].
  split; [reflexivity |].
  exact (proj1 (step_counter s (OpCreate insertContent now) Hb)).
Qed.

(** X2. [deleteContent] answers [true] exactly when the id was present. On
    an absent id the store is unchanged; on a present one the size drops by
    one. Other ids read as before and the counter never moves back, so the
    id of a deleted record is not handed out again. *)
Theorem deleteContent_removes_one s (k : Z) :
  (fst (deleteContent s k) = true <-> getContent s k <> None)
  /\ (getContent s k = None -> snd (deleteContent s k) = s)
  /\ (NoDup (JsMap.keys (content s)) -> getContent s k <> None ->
      JsMap.size (content (snd (deleteContent s k)))
      = JsMap.size (content s) - 1)
  /\ (forall k', k' <> k ->
        getContent (snd (deleteContent s k)) k' = getContent s k')
  /\ currentContentId (snd (deleteContent s k)) = currentContentId s.
Proof.
  unfold getContent, deleteContent, JsMap.has. simpl.
  split; [| split; [| split; [| split]]].
  - destruct (JsMap.get k (content s)); split; congruence.
  - intros H. rewrite (delete_absent _ _ H). now destruct s.
  - intros Hnd Hk.
    destruct (JsMap.get k (content s)) as [existing |] eqn:E; [| congruence].
    pose proof (length_delete_present _ _ _ Hnd E) as Hlen.
    unfold JsMap.size. lia.
  - intros k' Hne. now apply JsMapFacts.get_delete_other.
  - reflexivity.
Qed.

(** X3. After [deleteContent], an owner's listing is the listing from
    before without the record of that id, in the same order (in a store
    that holds every record under its own id, each with a valid instant as
    [createdAt]). *)
Theorem getContentByUserId_after_delete s (k uid : Z) :
  ids_match_keys s -> valid_instants s ->
  getContentByUserId (snd (deleteContent s k)) uid
  = filter (fun c => negb (k =? id c)) (getContentByUserId s uid).
Proof.
  intros Hm Hv.
  assert (Hv' : valid_instants (snd (deleteContent s k))).
  { unfold valid_instants in *. simpl. rewrite (values_delete id) by exact Hm.
    rewrite Forall_forall in *. intros c Hc. apply Hv.
    now apply filter_In in Hc. }
  rewrite (getContentByUserId_valid _ uid Hv).
  rewrite (getContentByUserId_valid _ uid Hv').
  unfold owned_in_insertion_order, deleteContent. simpl.
  rewrite (values_delete id) by exact Hm.
  rewrite filter_swap. apply (js_sort_filter createdAt).
Qed.

(** X4. After [createContent] (keys below the counter), the listings of
    the other owners are unchanged; the owner's listing holds the new record
    and the old ones, and the count in the statistics is one higher. When
    all instants are valid, the stored ones and the new one, and the new
    instant is later than every instant of the owner's records, the new
    record comes first, followed by the old listing. *)
Theorem getContentByUserId_after_create s (insertContent : InsertContent Json)
    (now : Z) :
  keys_below_counter s ->
  (forall uid, uid <> ins_userId insertContent ->
     getContentByUserId (snd (createContent s insertContent now)) uid
     = getContentByUserId s uid)
  /\ Permutation
       (getContentByUserId (snd (createContent s insertContent now))
          (ins_userId insertContent))
       (fst (createContent s insertContent now)
        :: getContentByUserId s (ins_userId insertContent))
  /\ totalContent
       (getContentStats (snd (createContent s insertContent now))
          (ins_userId insertContent))
     = totalContent (getContentStats s (ins_userId insertContent)) + 1
  /\ (valid_instants s -> valid_instant now ->
      Forall (fun c => createdAt c < now)
        (getContentByUserId s (ins_userId insertContent)) ->
      getContentByUserId (snd (createContent s insertContent now))
        (ins_userId insertContent)
      = fst (createContent s insertContent now)
        :: getContentByUserId s (ins_userId insertContent)).
Proof.
  intros Hb. pose proof (fresh_counter s Hb) as Hfresh.
  assert (Hperm :
    Permutation
      (getContentByUserId (snd (createContent s insertContent now))
         (ins_userId insertContent))
      (fst (createContent s insertContent now)
       :: getContentByUserId s (ins_userId insertContent))).
  { unfold getContentByUserId. simpl.
    rewrite (values_set_absent _ _ _ Hfresh), filter_app. simpl.
    rewrite Z.eqb_refl.
    eapply perm_trans; [apply js_sort_perm |].
    eapply perm_trans; [apply Permutation_app_comm |]. simpl.
    apply perm_skip, Permutation_sym, js_sort_perm. }
  split; [| split; [exact Hperm | split]].
  - intros uid Hne. unfold getContentByUserId. simpl.
    rewrite (values_set_absent _ _ _ Hfresh), filter_app. simpl.
    destruct (ins_userId insertContent =? uid) eqn:E;
      [apply Z.eqb_eq in E; congruence |].
    now rewrite app_nil_r.
  - unfold getContentStats. cbn [totalContent].
    rewrite (Permutation_length Hperm). cbn [length]. lia.
  - intros Hv Hnow Hnew.
    assert (Hv' : valid_instants (snd (createContent s insertContent now))).
    { unfold valid_instants in *. simpl.
      rewrite (values_set_absent _ _ _ Hfresh). apply Forall_app.
      split; [exact Hv | constructor; [exact Hnow | constructor]]. }
    rewrite (getContentByUserId_valid _ _ Hv) in *.
    rewrite (getContentByUserId_valid _ _ Hv').
    unfold owned_in_insertion_order in *. simpl.
    rewrite (values_set_absent _ _ _ Hfresh), filter_app. simpl.
    rewrite Z.eqb_refl.
    apply (js_sort_newest createdAt). simpl.
    eapply Permutation_Forall; [apply js_sort_perm | exact Hnew].
Qed.

(** X5. An update that names neither [id], [userId] nor [createdAt] leaves
    every listing in its order: the listing afterwards is the listing from
    before with the record of that id replaced by its merged version (in a
    store that holds every record once, under its own id). *)
Theorem getContentByUserId_after_update s (k uid : Z)
    (updates : ContentUpdates Json) existing :
  ids_match_keys s -> NoDup (JsMap.keys (content s)) ->
  getContent s k = Some existing ->
  upd_id updates = None -> upd_userId updates = None ->
  upd_createdAt updates = None ->
  getContentByUserId (snd (updateContent s k updates)) uid
  = map (fun c => if id c =? k then spread c updates else c)
      (getContentByUserId s uid).
Proof.
  intros Hm Hnd Hget Hid Hu Hat. unfold getContent in Hget.
  unfold getContentByUserId, updateContent. rewrite Hget. simpl.
  rewrite (values_set_present id _ k (fun c => spread c updates) existing Hm Hnd Hget).
  rewrite (filter_map_preserved (fun c => userId c =? uid)).
  - apply js_sort_map_invariant.
    assert (Hc : forall c,
      createdAt (if id c =? k then spread c updates else c) = createdAt c).
    { intros c. destruct (id c =? k); [| reflexivity].
      unfold spread. simpl. now rewrite Hat. }
    intros x y. unfold by_createdAt_desc. now rewrite !Hc.
  - intros c. destruct (id c =? k); [| reflexivity].
    unfold spread. simpl. now rewrite Hu.
Qed.



(** X7. Along any sequence of creates, deletes and updates of the declared
    type on a new store, every record stays under its own id and no two
    stored records share an id; so every record that a listing shows can be
    fetched by its id. *)
Theorem listed_records_can_be_fetched (ops : list (@StoreOp Json)) (uid : Z) :
  Forall op_well_typed ops ->
  ids_match_keys (fst (run new_MemStorage ops))
  /\ NoDup (map id (JsMap.values (content (fst (run new_MemStorage ops)))))
  /\ Forall (fun c => getContent (fst (run new_MemStorage ops)) (id c) = Some c)
       (getContentByUserId (fst (run new_MemStorage ops)) uid).
Proof.
  intros Hty.
  destruct (run_keeps_ids ops new_MemStorage) as (Hnd & Hm & Hids);
    [apply new_MemStorage_keys_below_counter | constructor | constructor
    | assumption |].
  split; [assumption |]. split; [assumption |].
  apply Forall_forall. intros c Hc.
  eapply Permutation_in in Hc; [| apply js_sort_perm].
  apply filter_In in Hc. destruct Hc as [Hc _].
  unfold JsMap.values in Hc. apply in_map_iff in Hc.
  destruct Hc as [[k v] [Hv Hin]]. simpl in Hv. subst v.
  unfold ids_match_keys in Hm. rewrite Forall_forall in Hm.
  pose proof (Hm _ Hin) as Hk. simpl in Hk. rewrite Hk.
  unfold getContent. now apply get_of_In.
Qed.
End ContentComposition.

(** ** Users *)

Section UserFacts.
Implicit Types (s : UserStorage).

Lemma find_app_last {A : Type} (f : A -> bool) l x :
  find f (l ++ [x])
  = match find f l with
    | Some y => Some y
    | None => if f x then Some x else None
    end.
Proof.
  induction l as [| y l IH]; simpl; [reflexivity |].
  destruct (f y); [reflexivity | exact IH].
Qed.

(** X8. In a user store whose keys are below the counter, [createUser]
    stores the user under the next id, where [getUser] finds it. The store
    does not keep usernames unique: when the name is taken the new user is
    stored all the same, and [getUserByUsername] goes on answering with the
    oldest user of that name; when the name is free it answers with the new
    user. Lookups of other names are unaffected. *)
Theorem createUser_lookup s (insertUser : InsertUser) :
  Forall (fun k => k < currentUserId s) (JsMap.keys (users s)) ->
  user_id (fst (createUser s insertUser)) = currentUserId s
  /\ getUser (snd (createUser s insertUser)) (currentUserId s)
     = Some (fst (createUser s insertUser))
  /\ JsMap.size (users (snd (createUser s insertUser)))
     = JsMap.size (users s) + 1
  /\ getUserByUsername (snd (createUser s insertUser)) (ins_username insertUser)
     = match getUserByUsername s (ins_username insertUser) with
       | Some older => Some older
       | None => Some (fst (createUser s insertUser))
       end
  /\ (forall name, name <> ins_username insertUser ->
        getUserByUsername (snd (createUser s insertUser)) name
        = getUserByUsername s name)
  /\ Forall (fun k => k < currentUserId (snd (createUser s insertUser)))
       (JsMap.keys (users (snd (createUser s insertUser)))).
Proof.
  intros Hb.
  assert (Hfresh : JsMap.get (currentUserId s) (users s) = None).
  { apply JsMapFacts.get_None_not_In. intros Hin.
    rewrite Forall_forall in Hb. specialize (Hb _ Hin). lia. }
  unfold getUser, getUserByUsername, createUser. simpl.
  split; [reflexivity |].
  split; [apply JsMapFacts.get_set_same |].
  split.
  { unfold JsMap.size. rewrite (JsMapFacts.set_absent _ _ _ Hfresh).
    rewrite length_app. simpl. lia. }
  rewrite (values_set_absent _ _ _ Hfresh).
  split; [| split].
  - rewrite find_app_last. simpl. now rewrite String.eqb_refl.
  - intros name Hne. rewrite find_app_last. simpl.
    destruct (String.eqb (ins_username insertUser) name) eqn:E.
    + apply String.eqb_eq in E. congruence.
    + now destruct (find _ _).
  - apply Forall_forall. intros k Hk. apply JsMapFacts.keys_set in Hk.
    destruct Hk as [-> | Hk]; [lia |].
    rewrite Forall_forall in Hb. specialize (Hb _ Hk). lia.
Qed.
End UserFacts.

(** ** Templates *)

Section TemplateFacts.
Implicit Types (s : TemplateStorage) (l : list InsertContentTemplate).

Lemma createContentTemplates_appends l : forall s,
  Forall (fun k => k < currentTemplateId s) (JsMap.keys (contentTemplates s)) ->
  map template_payload (getContentTemplates (createContentTemplates s l))
  = map template_payload (getContentTemplates s) ++ l
  /\ map tpl_id (getContentTemplates (createContentTemplates s l))
     = map tpl_id (getContentTemplates s)
       ++ count_from (currentTemplateId s) (length l)
  /\ currentTemplateId (createContentTemplates s l)
     = currentTemplateId s + Z.of_nat (length l).
Proof.
  induction l as [| t l IH]; intros s Hb.
  - simpl. rewrite !app_nil_r. repeat split. lia.
  - assert (Hfresh : JsMap.get (currentTemplateId s) (contentTemplates s) = None).
    { apply JsMapFacts.get_None_not_In. intros Hin.
      rewrite Forall_forall in Hb. specialize (Hb _ Hin). lia. }
    unfold createContentTemplates in *. cbn [fold_left].
    destruct (IH (snd (createContentTemplate s t))) as (H1 & H2 & H3).
    { simpl. apply Forall_forall. intros k Hk.
      apply JsMapFacts.keys_set in Hk. destruct Hk as [-> | Hk]; [lia |].
      rewrite Forall_forall in Hb. specialize (Hb _ Hk). lia. }
    rewrite H1, H2, H3. unfold getContentTemplates. simpl.
    rewrite (values_set_absent _ _ _ Hfresh), !map_app. simpl.
    rewrite <- !app_assoc. simpl. destruct t; simpl.
    repeat split. lia.
Qed.

Lemma map_filter_payload (p : string) (ts : list ContentTemplate) :
  map template_payload
    (filter (fun t => String.eqb (tpl_platform t) p) ts)
  = filter (fun t => String.eqb (ins_tpl_platform t) p)
      (map template_payload ts).
Proof.
  induction ts as [| t ts IH]; [reflexivity |]. simpl.
  destruct (String.eqb (tpl_platform t) p); simpl; now rewrite IH.
Qed.

(** X9. Creating templates one after the other, starting from the empty
    template map with the counter at 1 as the constructor does, gives them
    the ids 1, 2, ... in that order; [getContentTemplates] returns them in
    creation order with their payloads intact, and
    [getContentTemplatesByPlatform] returns exactly those whose platform is
    the given string, in the same order. *)
Theorem templates_in_creation_order l (platform : string) :
  map template_payload
    (getContentTemplates
       (createContentTemplates
          {| contentTemplates := JsMap.empty; currentTemplateId := 1 |} l))
  = l
  /\ map tpl_id
       (getContentTemplates
          (createContentTemplates
             {| contentTemplates := JsMap.empty; currentTemplateId := 1 |} l))
     = count_from 1 (length l)
  /\ currentTemplateId
       (createContentTemplates
          {| contentTemplates := JsMap.empty; currentTemplateId := 1 |} l)
     = 1 + Z.of_nat (length l)
  /\ map template_payload
       (getContentTemplatesByPlatform
          (createContentTemplates
             {| contentTemplates := JsMap.empty; currentTemplateId := 1 |} l)
          platform)
     = filter (fun t => String.eqb (ins_tpl_platform t) platform) l.
Proof.
  destruct (createContentTemplates_appends l
              {| contentTemplates := JsMap.empty; currentTemplateId := 1 |})
    as (H1 & H2 & H3); [constructor |].
  simpl in H1, H2, H3.
  split; [exact H1 |]. split; [exact H2 |]. split; [exact H3 |].
  unfold getContentTemplatesByPlatform. rewrite map_filter_payload.
  unfold getContentTemplates in H1. now rewrite H1.
Qed.

(** The store as the constructor leaves it: six templates, ids 1 to 6, one
    per platform; the match on the platform is exact. *)
Example initializeTemplates_seeds :
  map tpl_id (getContentTemplates initializeTemplates) = [1; 2; 3; 4; 5; 6]
  /\ map tpl_platform (getContentTemplates initializeTemplates)
     = ["youtube"; "instagram"; "twitter"; "facebook"; "linkedin"; "tiktok"]%string
  /\ currentTemplateId initializeTemplates = 7
  /\ map tpl_name (getContentTemplatesByPlatform initializeTemplates "twitter")
     = ["Twitter Thread"%string]
  /\ getContentTemplatesByPlatform initializeTemplates "Twitter" = [].
Proof. repeat split. Qed.
End TemplateFacts.

(** ** Composing the routes *)

Section RouteFacts.
Variable generateContent_outcome :
  ContentGenerationRequest -> Outcome GeneratedContent.
Variable base64 : list Byte.byte -> string.

Local Abbreviation generate := (generate_handler generateContent_outcome base64).
Local Abbreviation request_of := (adapter_request base64).

Lemma valid_or_rejected req :
  valid req
  \/ falsy (body_platform req) || falsy (body_contentType req)
     || falsy (body_brief req) = true.
Proof.
  unfold valid. rewrite <- !falsy_missing.
  destruct (falsy (body_platform req)), (falsy (body_contentType req)),
    (falsy (body_brief req)); simpl; auto;
    left; repeat split; discriminate.
Qed.

(** X10. Generation is not idempotent: the same valid request, run twice
    with the adapter answering, calls the adapter twice and stores two
    records under consecutive ids, both answered with 200. *)
Theorem generate_twice (now1 now2 : Z) (req : GenerateRequest) (w : World)
    (g : GeneratedContent) :
  valid req ->
  generateContent_outcome (request_of req) = Return g ->
  keys_below_counter (storage w) ->
  fst (generate now1 req w)
  = json (GeneratedBody (currentContentId (storage w)) g)
  /\ fst (generate now2 req (snd (generate now1 req w)))
     = json (GeneratedBody (currentContentId (storage w) + 1) g)
  /\ (exists first second,
        getContent (storage (snd (generate now2 req (snd (generate now1 req w)))))
          (currentContentId (storage w)) = Some first
        /\ getContent (storage (snd (generate now2 req (snd (generate now1 req w)))))
             (currentContentId (storage w) + 1) = Some second
        /\ createdAt first = now1 /\ createdAt second = now2
        /\ generatedContent first = gc_content g
        /\ generatedContent second = gc_content g)
  /\ JsMap.size (content (storage (snd (generate now2 req (snd (generate now1 req w))))))
     = JsMap.size (content (storage w)) + 2
  /\ provider_calls (snd (generate now2 req (snd (generate now1 req w))))
     = provider_calls w
       ++ [CallGenerateContent (request_of req);
           CallGenerateContent (request_of req)].
Proof.
  intros Hv Hret Hb.
  rewrite (generate_handler_returns _ _ now1 req w g Hv Hret).
  cbn [fst snd].
  rewrite (generate_handler_returns _ _ now2 req _ g Hv Hret).
  cbn [fst snd storage provider_calls].
  destruct (createContent_grows (storage w) (record_to_save req g) now1 Hb)
    as (Hsize1 & Hb1).
  destruct (createContent_grows _ (record_to_save req g) now2 Hb1)
    as (Hsize2 & _).
  split; [reflexivity |].
  split; [simpl; reflexivity |].
  split.
  - eexists. eexists.
    split.
    { unfold getContent. simpl. rewrite JsMapFacts.get_set_other by lia.
      apply JsMapFacts.get_set_same. }
    split; [unfold getContent; simpl; apply JsMapFacts.get_set_same |].
    repeat split.
  - split; [rewrite Hsize2, Hsize1; lia |].
    now rewrite <- app_assoc.
Qed.

(** X11. A generation request is answered 200, 400 or 500. It is answered
    400 exactly when a required field is missing, and then nothing is
    called or stored; any answer other than 200 leaves the store as it was;
    an answer of 200 means one adapter call and one more record. *)
Theorem generate_status_and_store (now : Z) (req : GenerateRequest) (w : World) :
  keys_below_counter (storage w) ->
  (status (fst (generate now req w)) = 200
   \/ status (fst (generate now req w)) = 400
   \/ status (fst (generate now req w)) = 500)
  /\ (status (fst (generate now req w)) = 400 <-> ~ valid req)
  /\ (status (fst (generate now req w)) = 400 -> snd (generate now req w) = w)
  /\ (status (fst (generate now req w)) <> 200 ->
      storage (snd (generate now req w)) = storage w)
  /\ (status (fst (generate now req w)) = 200 ->
      JsMap.size (content (storage (snd (generate now req w))))
      = JsMap.size (content (storage w)) + 1
      /\ provider_calls (snd (generate now req w))
         = provider_calls w ++ [CallGenerateContent (request_of req)]).
Proof.
  intros Hb. destruct (valid_or_rejected req) as [Hv | Hrej].
  - destruct (generateContent_outcome (request_of req)) as [g | message] eqn:E.
    + rewrite (generate_handler_returns _ _ now req w g Hv E).
      cbn [fst snd status json storage provider_calls].
      destruct (createContent_grows (storage w) (record_to_save req g) now Hb)
        as (Hsize & _).
      split; [now left |].
      split; [split; [discriminate | tauto] |].
      split; [discriminate |].
      split; [congruence |]. intros _. now split.
    + rewrite (generate_handler_throws _ _ now req w message Hv E).
      cbn [fst snd status status_json storage provider_calls].
      split; [now right; right |].
      split; [split; [discriminate | tauto] |].
      split; [discriminate |].
      split; [reflexivity | discriminate].
  - rewrite (generate_handler_rejects _ _ now req w Hrej).
    cbn [fst snd status status_json].
    split; [now right; left |].
    split.
    { split; [| reflexivity]. intros _ Hv.
      rewrite (valid_check _ Hv) in Hrej. discriminate. }
    split; [reflexivity |].
    split; [reflexivity | discriminate].
Qed.

(** X12. After a generation answered 200, [GET /api/content/:id] on the
    returned id answers 200 with the stored record, which carries the
    adapter's title, content and metadata, and [GET /api/content] lists that
    record; neither read changes anything. *)
Theorem generate_then_get (now : Z) (req : GenerateRequest) (w : World)
    (g : GeneratedContent) :
  valid req ->
  generateContent_outcome (request_of req) = Return g ->
  exists c,
    get_handler (Int (currentContentId (storage w))) (snd (generate now req w))
    = (JsonReply 200 (ContentPayload c), snd (generate now req w))
    /\ title c = gc_title g
    /\ generatedContent c = gc_content g
    /\ metadata c = Some (gc_metadata g)
    /\ exists l,
         list_handler (snd (generate now req w))
         = (JsonReply 200 (ContentListPayload l), snd (generate now req w))
         /\ In c l.
Proof.
  intros Hv Hret.
  rewrite (generate_handler_returns _ _ now req w g Hv Hret). cbn [snd].
  exists (fst (createContent (storage w) (record_to_save req g) now)).
  unfold get_handler, list_handler, try_catch_with, bind, ret,
    storage_getContent, storage_getContentByUserId.
  cbn [storage]. unfold getContent at 1. cbn [createContent snd content].
  rewrite JsMapFacts.get_set_same.
  split; [reflexivity |]. repeat (split; [reflexivity |]).
  eexists. split; [reflexivity |].
  unfold getContentByUserId.
  eapply Permutation_in; [apply Permutation_sym, js_sort_perm |].
  apply filter_In. split; [| reflexivity].
  cbn [content]. unfold JsMap.values. apply in_map_iff.
  eexists (_, _). split; [reflexivity |].
  apply In_set.
Qed.
End RouteFacts.

Section ReadWriteRoutes.

Lemma world_eta (w : World) :
  {| storage := storage w; provider_calls := provider_calls w |} = w.
Proof. now destruct w. Qed.

Lemma storage_eta {Json : Type} (s : MemStorage Json) :
  {| content := content s; currentContentId := currentContentId s |} = s.
Proof. now destruct s. Qed.

(** X13. [DELETE /api/content/:id] answers 204 with no body when the id
    names a stored record and 404 otherwise ([NaN] included), in which case
    nothing changes. Either way the id is gone afterwards: a read of it
    answers 404, and so does a second delete, which changes nothing. No
    provider call is made. *)
Theorem delete_handler_then_gone (id : parsed_int) (w : World) :
  (found id w <> None -> fst (delete_handler id w) = EmptyReply 204)
  /\ (found id w = None ->
      delete_handler id w
      = (JsonReply 404 (ErrorPayload "Content not found"), w))
  /\ fst (get_handler id (snd (delete_handler id w)))
     = JsonReply 404 (ErrorPayload "Content not found")
  /\ delete_handler id (snd (delete_handler id w))
     = (JsonReply 404 (ErrorPayload "Content not found"),
        snd (delete_handler id w))
  /\ provider_calls (snd (delete_handler id w)) = provider_calls w.
Proof.
  assert (Hgone : forall z,
    JsMap.get z (JsMap.delete z (content (storage w))) = None)
    by (intros z; apply JsMapFacts.get_delete_same).
  destruct id as [| z]; unfold found.
  - repeat split; congruence.
  - unfold delete_handler, get_handler, try_catch_with, bind, ret,
      storage_deleteContent, storage_getContent, deleteContent, getContent,
      JsMap.has.
    cbn [fst snd storage content provider_calls].
    destruct (JsMap.get z (content (storage w))) as [c |] eqn:E;
      cbn [negb fst snd storage content provider_calls].
    + rewrite Hgone. cbn [negb fst snd storage content provider_calls].
      rewrite (delete_absent _ _ (Hgone z)).
      repeat split; congruence.
    + rewrite (delete_absent _ _ E), storage_eta, world_eta, E.
      cbn [negb fst snd]. rewrite (delete_absent _ _ E), storage_eta, world_eta.
      repeat split; congruence.
Qed.

(** X14. [PUT /api/content/:id] on an id that names no record ([NaN]
    included) answers 404 and changes nothing; on a stored record it answers
    200 with the merged record, and a read of the id afterwards answers 200
    with that same record. *)
Theorem update_handler_then_get (id : parsed_int)
    (updates : ContentUpdates Metadata) (w : World) :
  (found id w = None ->
   update_handler id updates w
   = (status_json 404 (ErrorBody "Content not found"), w))
  /\ (forall existing, found id w = Some existing ->
        fst (update_handler id updates w)
        = json (ContentBody (spread existing updates))
        /\ fst (get_handler id (snd (update_handler id updates w)))
           = JsonReply 200 (ContentPayload (spread existing updates))
        /\ provider_calls (snd (update_handler id updates w))
           = provider_calls w).
Proof.
  destruct id as [| z]; unfold found.
  - split; [reflexivity | discriminate].
  - unfold update_handler, get_handler, try_catch, try_catch_with, bind, ret,
      storage_updateContent, storage_getContent, updateContent, getContent.
    split.
    + intros E. rewrite E. cbn [fst snd]. now rewrite world_eta.
    + intros existing E. rewrite E.
      cbn [fst snd storage content provider_calls].
      rewrite JsMapFacts.get_set_same. repeat split.
Qed.
End ReadWriteRoutes.

Section OptimizeFacts.
Variable optimizeContentForPlatform_outcome : OptimizeCall -> Outcome string.

Local Abbreviation optimize := (optimize_handler optimizeContentForPlatform_outcome).

(** X15. [POST /api/content/optimize] answers 400 without calling the
    provider when [content], [fromPlatform] or [toPlatform] is absent or
    empty. Otherwise it calls the provider exactly once, with the three
    strings as given, and answers 200 with the provider's text or 500 with
    the provider's message. *)
Theorem optimize_handler_calls (req : OptimizeRequest) (calls : list OptimizeCall) :
  (missing (body_content req) \/ missing (body_fromPlatform req)
   \/ missing (body_toPlatform req) ->
   optimize req calls
   = (JsonReply 400
        (ErrorPayload "Missing required fields: content, fromPlatform, toPlatform"),
      calls))
  /\ (~ missing (body_content req) -> ~ missing (body_fromPlatform req) ->
      ~ missing (body_toPlatform req) ->
      exists call,
        body_content req = Some (call_content call)
        /\ body_fromPlatform req = Some (call_fromPlatform call)
        /\ body_toPlatform req = Some (call_toPlatform call)
        /\ snd (optimize req calls) = calls ++ [call]
        /\ fst (optimize req calls)
           = match optimizeContentForPlatform_outcome call with
             | Return optimizedContent =>
                 JsonReply 200 (OptimizedPayload optimizedContent)
             | Throw message =>
                 JsonReply 500
                   (ErrorPayload ("Failed to optimize content: " ++ message))
             end).
Proof.
  unfold optimize_handler. split.
  - intros H. rewrite <- !falsy_missing in H.
    assert (E : falsy (body_content req) || falsy (body_fromPlatform req)
                || falsy (body_toPlatform req) = true)
      by (rewrite !orb_true_iff; tauto).
    now rewrite E.
  - intros H1 H2 H3. rewrite <- falsy_missing in H1, H2, H3.
    apply not_true_is_false in H1, H2, H3. rewrite H1, H2, H3. simpl.
    eexists {| call_content := _; call_fromPlatform := _; call_toPlatform := _ |}.
    cbn [call_content call_fromPlatform call_toPlatform].
    split; [now apply falsy_false_text |].
    split; [now apply falsy_false_text |].
    split; [now apply falsy_false_text |].
    destruct (optimizeContentForPlatform_outcome _); split; reflexivity.
Qed.
End OptimizeFacts.

(** ** The upload widget *)

Section UploadFacts.
Context {File : Type}.
Implicit Types (files acceptedFiles : list File).

Lemma filter_other_index_length files : forall i index,
  (length (filter_other_index i index files) <= length files)%nat.
Proof.
  induction files as [| f files IH]; intros i index; simpl; [lia |].
  destruct (i =? index); simpl; specialize (IH (i + 1) index); lia.
Qed.

Lemma filter_other_index_passed files : forall i index,
  index < i -> filter_other_index i index files = files.
Proof.
  induction files as [| f files IH]; intros i index H; simpl; [reflexivity |].
  destruct (i =? index) eqn:E; [apply Z.eqb_eq in E; lia |].
  f_equal. apply IH. lia.
Qed.

Lemma filter_other_index_split files : forall i n,
  (n < length files)%nat ->
  filter_other_index i (i + Z.of_nat n) files
  = firstn n files ++ skipn (S n) files.
Proof.
  induction files as [| f files IH]; intros i n Hn; simpl in Hn; [lia |].
  destruct n as [| n]; cbn [filter_other_index firstn skipn app].
  - replace (i + Z.of_nat 0) with i by lia. rewrite Z.eqb_refl.
    apply filter_other_index_passed. lia.
  - destruct (i =? i + Z.of_nat (S n)) eqn:E; [apply Z.eqb_eq in E; lia |].
    f_equal. replace (i + Z.of_nat (S n)) with (i + 1 + Z.of_nat n) by lia.
    apply IH. lia.
Qed.

Lemma filter_other_index_beyond files : forall i index,
  i + Z.of_nat (length files) <= index ->
  filter_other_index i index files = files.
Proof.
  induction files as [| f files IH]; intros i index H; simpl in *; [reflexivity |].
  destruct (i =? index) eqn:E; [apply Z.eqb_eq in E; lia |].
  f_equal. apply IH. lia.
Qed.

Lemma onDrop_length files (maxFiles : Z) acceptedFiles :
  0 <= maxFiles ->
  Z.of_nat (length (onDrop files maxFiles acceptedFiles)) <= maxFiles.
Proof.
  intros H. unfold onDrop, slice_from_start.
  destruct (maxFiles <? 0) eqn:E; [apply Z.ltb_lt in E; lia |].
  pose proof (firstn_le_length (Z.to_nat maxFiles) (files ++ acceptedFiles)).
  lia.
Qed.

(** X16. With a limit [maxFiles] that is not negative, the widget never
    holds more than [maxFiles] files, whatever is dropped and removed, in
    whatever order. *)
Theorem upload_never_exceeds_maxFiles (maxFiles : Z)
    (actions : list (@UploadAction File)) :
  0 <= maxFiles ->
  Z.of_nat (length (upload_run maxFiles actions)) <= maxFiles.
Proof.
  intros H. unfold upload_run.
  assert (Hgen : forall files,
    Z.of_nat (length files) <= maxFiles ->
    Z.of_nat (length (fold_left (upload_step maxFiles) actions files))
    <= maxFiles).
  { induction actions as [| a actions IH]; intros files Hf; [exact Hf |].
    simpl. apply IH. destruct a as [acceptedFiles | index]; simpl.
    - now apply onDrop_length.
    - unfold removeFile.
      pose proof (filter_other_index_length files 0 index). lia. }
  apply Hgen. simpl. lia.
Qed.

(** X17. A drop keeps the files already held, in place, and takes from the
    dropped files, in their order, only as many as still fit; the rest is
    discarded without notice. *)
Theorem onDrop_keeps_held_files files (maxFiles : Z) acceptedFiles :
  Z.of_nat (length files) <= maxFiles ->
  onDrop files maxFiles acceptedFiles
  = files
    ++ firstn (Z.to_nat (maxFiles - Z.of_nat (length files))) acceptedFiles.
Proof.
  intros H. unfold onDrop, slice_from_start.
  destruct (maxFiles <? 0) eqn:E; [apply Z.ltb_lt in E; lia |].
  rewrite firstn_app.
  rewrite firstn_all2 by lia. f_equal. f_equal. lia.
Qed.

(** X18. [removeFile] drops exactly the file at a position that exists and
    keeps the others in order; a position that does not exist (negative, or
    past the end) leaves the list as it is. *)
Theorem removeFile_at files (index : Z) :
  (0 <= index < Z.of_nat (length files) ->
   removeFile files index
   = firstn (Z.to_nat index) files ++ skipn (S (Z.to_nat index)) files
   /\ S (length (removeFile files index)) = length files)
  /\ (index < 0 \/ Z.of_nat (length files) <= index ->
      removeFile files index = files).
Proof.
  unfold removeFile. split.
  - intros H.
    assert (Hsplit : filter_other_index 0 index files
                     = firstn (Z.to_nat index) files
                       ++ skipn (S (Z.to_nat index)) files).
    { replace index with (0 + Z.of_nat (Z.to_nat index)) at 1 by lia.
      apply filter_other_index_split. lia. }
    split; [exact Hsplit |].
    rewrite Hsplit, length_app, length_firstn, length_skipn. lia.
  - intros [H | H].
    + apply filter_other_index_passed. lia.
    + apply filter_other_index_beyond. lia.
Qed.
End UploadFacts.

(** ** The content form and the generation route *)

Section FormFacts.
Variable generateContent_outcome :
  ContentGenerationRequest -> Outcome GeneratedContent.
Variable base64 : list Byte.byte -> string.

Lemma text_part_of_files name n files :
  text_part name (map (FilePart n) files) = None.
Proof. induction files; simpl; auto. Qed.

Lemma file_parts_of_files n files :
  file_parts n (map (FilePart n) files) = files.
Proof.
  induction files as [| f files IH]; simpl; [reflexivity |].
  now rewrite String.eqb_refl, IH.
Qed.

Lemma multipart_text_not_empty value :
  multipart_text value = EmptyString -> value = EmptyString.
Proof.
  destruct value as [| c rest]; [reflexivity |]. simpl.
  destruct (Ascii.eqb c CR); [discriminate |].
  destruct (Ascii.eqb c LF); discriminate.
Qed.

Lemma multipart_text_single_line value :
  single_line value = true -> multipart_text value = value.
Proof.
  induction value as [| c rest IH]; [reflexivity |]. simpl.
  rewrite !andb_true_iff, !negb_true_iff. intros [[Hcr Hlf] Hrest].
  rewrite Hcr, Hlf. now rewrite IH.
Qed.

Lemma sent_not_missing value :
  1 <= Z.of_nat (String.length value) -> ~ missing (Some (multipart_text value)).
Proof.
  intros H [E | E]; [discriminate |]. injection E as E.
  apply multipart_text_not_empty in E. subst. simpl in H. lia.
Qed.

(** X19. A form that passes the client's schema and that multer lets
    through (at most five images, each of an image type and below 10MB, text
    values below the field limit) is never answered 400 by the generation
    route: the request passes the server's check of the required fields.
    The adapter is asked for the platform, content type and brief of the
    form as the multipart encoding carries them (line breaks as CR LF), with
    the template only when it is not empty and with the images encoded in
    their order; for values without line breaks these are the form's own
    strings. *)
Theorem accepted_form_passes_server_check (data : ContentFormData)
    (images : list UploadedFile) (now : Z) (w : World) :
  contentFormSchema data = true ->
  within_upload_limits data images ->
  valid (received (build_formData data (Some images)))
  /\ status (fst (generate_handler generateContent_outcome base64 now
                    (received (build_formData data (Some images))) w)) <> 400
  /\ adapter_request base64 (received (build_formData data (Some images)))
     = {| req_platform := multipart_text (form_platform data);
          req_contentType := multipart_text (form_contentType data);
          req_brief := multipart_text (form_brief data);
          req_images := Some (map (fun file => base64 (file_bytes file)) images);
          req_template := option_map multipart_text (sent_template data) |}
  /\ (single_line (form_platform data) = true ->
      single_line (form_contentType data) = true ->
      single_line (form_brief data) = true ->
      req_platform (adapter_request base64
                      (received (build_formData data (Some images))))
      = form_platform data
      /\ req_contentType (adapter_request base64
                            (received (build_formData data (Some images))))
         = form_contentType data
      /\ req_brief (adapter_request base64
                      (received (build_formData data (Some images))))
         = form_brief data).
Proof.
  unfold contentFormSchema. rewrite !andb_true_iff, !Z.leb_le.
  intros [[Hp Hc] Hb] _.
  assert (Hreq : received (build_formData data (Some images))
                 = {| body_platform := Some (multipart_text (form_platform data));
                      body_contentType :=
                        Some (multipart_text (form_contentType data));
                      body_brief := Some (multipart_text (form_brief data));
                      body_template :=
                        option_map multipart_text (sent_template data);
                      files := Some (map file_bytes images) |}).
  { unfold received, build_formData, sent_template. cbn.
    destruct (form_template data) as [t |]; cbn.
    - destruct (String.eqb t EmptyString); cbn;
        now rewrite ?text_part_of_files, ?file_parts_of_files.
    - now rewrite ?text_part_of_files, ?file_parts_of_files. }
  rewrite Hreq.
  assert (Hv : valid {| body_platform := Some (multipart_text (form_platform data));
                        body_contentType :=
                          Some (multipart_text (form_contentType data));
                        body_brief := Some (multipart_text (form_brief data));
                        body_template :=
                          option_map multipart_text (sent_template data);
                        files := Some (map file_bytes images) |}).
  { unfold valid. cbn.
    repeat split; apply sent_not_missing; lia. }
  split; [exact Hv |]. split; [| split].
  - unfold generate_handler, try_catch. rewrite (valid_check _ Hv).
    unfold bind, generateContent, storage_createContent, ret.
    destruct (generateContent_outcome _); cbn; discriminate.
  - unfold adapter_request, uploaded_images. cbn. now rewrite map_map.
  - intros H1 H2 H3. cbn.
    now rewrite !multipart_text_single_line by assumption.
Qed.
End FormFacts.

(** ** The statistics, platform by platform *)

Section StatsByPlatform.
Context {Json : Type}.
Implicit Types (c : Content Json) (l : list (Content Json)).

Lemma count_platform_own pc c k :
  counters pc -> ordinary c ->
  counters (count_platform pc c)
  /\ counted (JsObject.own k (count_platform pc c))
     = counted (JsObject.own k pc)
       + (if String.eqb (platform c) k then 1 else 0).
Proof.
  intros Hc Hord. split; [exact (proj1 (count_platform_ordinary pc c Hc Hord)) |].
  unfold ordinary in Hord.
  unfold count_platform, JsObject.set, JsObject.get.
  rewrite (JsObjectFacts.inherited_None_not_proto _ Hord), Hord.
  rewrite JsObjectFacts.own_define.
  destruct (String.eqb k (platform c)) eqn:E.
  - apply String.eqb_eq in E. subst k. rewrite String.eqb_refl.
    destruct (JsObject.own (platform c) pc) as [v |] eqn:Eown; [| reflexivity].
    destruct (Hc _ _ Eown) as [n [-> Hn]]. simpl.
    assert ((n =? 0) = false) as -> by (apply Z.eqb_neq; lia).
    reflexivity.
  - rewrite String.eqb_sym, E. lia.
Qed.

Lemma fold_count_platform_own l k : forall pc,
  counters pc -> Forall ordinary l ->
  counters (fold_left count_platform l pc)
  /\ counted (JsObject.own k (fold_left count_platform l pc))
     = counted (JsObject.own k pc) + records_on k l.
Proof.
  unfold records_on.
  induction l as [| c l IH]; intros pc Hc Hord; simpl.
  - split; [assumption | lia].
  - inversion Hord as [| ? ? Hc1 Hl]; subst.
    destruct (count_platform_own pc c k Hc Hc1) as (Hc' & Hown).
    destruct (IH _ Hc' Hl) as (Hc'' & Hfold).
    split; [assumption |]. rewrite Hfold, Hown.
    destruct (String.eqb (platform c) k); simpl length; lia.
Qed.

(** X20. When none of the owner's platform tags names a property of
    [Object.prototype], [getContentStats] counts as one expects:
    [totalContent] and [aiGenerated] are the number of the owner's records,
    [platforms] is the number of distinct tags, and [byPlatform] holds, for
    each tag in use, the number of the owner's records that carry it, and no
    other key. *)
Theorem getContentStats_counts_each_platform (s : MemStorage Json) (uid : Z)
    (p : string) :
  Forall ordinary (getContentByUserId s uid) ->
  totalContent (getContentStats s uid)
  = Z.of_nat (length (getContentByUserId s uid))
  /\ aiGenerated (getContentStats s uid) = totalContent (getContentStats s uid)
  /\ platforms (getContentStats s uid)
     = distinct_platforms (getContentByUserId s uid)
  /\ JsObject.own p (byPlatform (getContentStats s uid))
     = (if records_on p (getContentByUserId s uid) =? 0 then None
        else Some (JsObject.Num (records_on p (getContentByUserId s uid)))).
Proof.
  intros Hord.
  destruct (getContentStats_ordinary s uid Hord) as (H1 & H2 & H3 & _).
  split; [exact H1 |]. split; [exact H2 |]. split; [exact H3 |].
  unfold getContentStats. cbn [byPlatform].
  destruct (fold_count_platform_own (getContentByUserId s uid) p [])
    as (Hc & Hown); [intros k v; discriminate | assumption |].
  simpl in Hown.
  destruct (JsObject.own p (fold_left count_platform (getContentByUserId s uid) []))
    as [v |] eqn:E.
  - destruct (Hc _ _ E) as [n [-> Hn]]. simpl in Hown. rewrite <- Hown.
    assert ((n =? 0) = false) as -> by (apply Z.eqb_neq; lia).
    reflexivity.
  - simpl in Hown. rewrite <- Hown. reflexivity.
Qed.
End StatsByPlatform.

(** ** More on the routes *)

Section MoreRouteFacts.

(** X21. [GET /api/templates] always answers 200. Without a platform, or
    with an empty one, it returns every template; with a platform it returns
    the templates of exactly that platform, in store order, which is the
    empty list for a platform no template has. *)
Theorem templates_handler_filters (platform : field) (s : TemplateStorage) :
  exists l,
    templates_handler platform s = JsonReply 200 (TemplateListPayload l)
    /\ (missing platform -> l = getContentTemplates s)
    /\ (forall p, platform = Some p -> p <> EmptyString ->
          l = filter (fun t => String.eqb (tpl_platform t) p)
                (getContentTemplates s)
          /\ (forall t, In t l
                        <-> In t (getContentTemplates s) /\ tpl_platform t = p)
          /\ ((forall t, In t (getContentTemplates s) -> tpl_platform t <> p) ->
              l = [])).
Proof.
  unfold templates_handler. eexists. split; [reflexivity |]. split.
  - intros H. apply falsy_missing in H. now rewrite H.
  - intros p -> Hp.
    assert (E : falsy (Some p) = false).
    { simpl. now apply String.eqb_neq. }
    rewrite E. unfold getContentTemplatesByPlatform, getContentTemplates. simpl.
    split; [reflexivity |]. split.
    + intros t. now rewrite filter_In, String.eqb_eq.
    + intros Hnone.
      induction (JsMap.values (contentTemplates s)) as [| t ts IH];
        [reflexivity |].
      simpl. destruct (String.eqb (tpl_platform t) p) eqn:Et.
      * apply String.eqb_eq in Et. exfalso. apply (Hnone t); [now left | exact Et].
      * apply IH. intros t' Ht'. apply Hnone. now right.
Qed.

Variable analyzeImage_outcome : string -> Outcome string.
Variable base64 : list Byte.byte -> string.

Local Abbreviation analyze := (analyze_handler analyzeImage_outcome base64).

(** X22. [POST /api/images/analyze] never touches the store and calls the
    provider at most once. It answers 200 exactly when an image part is
    present and the analysis of its base64 text returns, and the answer then
    carries that analysis. *)
Theorem analyze_handler_status_and_store (file : option (list Byte.byte))
    (w : World) :
  storage (snd (analyze file w)) = storage w
  /\ (provider_calls (snd (analyze file w)) = provider_calls w
      \/ exists buffer,
           file = Some buffer
           /\ provider_calls (snd (analyze file w))
              = provider_calls w ++ [CallAnalyzeImage (base64 buffer)])
  /\ (forall analysis,
        fst (analyze file w) = json (AnalysisBody analysis)
        <-> exists buffer,
              file = Some buffer
              /\ analyzeImage_outcome (base64 buffer) = Return analysis).
Proof.
  unfold analyze_handler, try_catch, bind, analyzeImage, ret.
  destruct file as [buffer |].
  - destruct (analyzeImage_outcome (base64 buffer)) as [a | message] eqn:E;
      cbn [fst snd storage provider_calls].
    + split; [reflexivity |]. split; [right; now exists buffer |].
      intros analysis. split.
      * intros [= <-]. now exists buffer.
      * intros [b [[= <-] Hb]]. congruence.
    + split; [reflexivity |]. split; [right; now exists buffer |].
      intros analysis. split; [discriminate |].
      intros [b [[= <-] Hb]]. congruence.
  - cbn [fst snd]. split; [reflexivity |]. split; [now left |].
    intros analysis. split; [discriminate |].
    intros [b [Hb _]]. discriminate.
Qed.
End MoreRouteFacts.

Section Ownership.
Context {Json : Type}.
Implicit Types (s : MemStorage Json).

(** X23. An update may name [userId]: the record then moves to that owner.
    It no longer shows in the listing of any other owner, the previous one
    included, while a read by id still finds it (in a store that holds
    every record once, under its own id; the update does not name [id]). *)
Theorem update_moves_record_to_owner s (k uid other : Z)
    (updates : ContentUpdates Json) existing :
  ids_match_keys s -> NoDup (JsMap.keys (content s)) ->
  getContent s k = Some existing ->
  upd_id updates = None -> upd_userId updates = Some other -> other <> uid ->
  Forall (fun c => id c <> k)
    (getContentByUserId (snd (updateContent s k updates)) uid)
  /\ getContent (snd (updateContent s k updates)) k
     = Some (spread existing updates)
  /\ userId (spread existing updates) = other.
Proof.
  intros Hm Hnd Hget Hid Hu Hne. unfold getContent in *.
  unfold getContentByUserId, updateContent. rewrite Hget.
  cbn [snd content]. split; [| split].
  - rewrite (values_set_present id _ k (fun c => spread c updates) existing
               Hm Hnd Hget).
    apply Forall_forall. intros c Hc.
    eapply Permutation_in in Hc; [| apply js_sort_perm].
    apply filter_In in Hc. destruct Hc as [Hc Huid].
    apply in_map_iff in Hc. destruct Hc as [v [Hv _]].
    apply Z.eqb_eq in Huid.
    destruct (id v =? k) eqn:E.
    + subst c. unfold spread in Huid. simpl in Huid. rewrite Hu in Huid.
      simpl in Huid. congruence.
    + subst c. now apply Z.eqb_neq.
  - apply JsMapFacts.get_set_same.
  - unfold spread. simpl. now rewrite Hu.
Qed.
End Ownership.

(** ** Instances of the further properties *)

Lemma sample_store_ids_match_keys : ids_match_keys sample_store.
Proof. repeat constructor. Defined.

Lemma sample_store_keys_below_counter : keys_below_counter sample_store.
Proof. repeat constructor. Defined.

Lemma sample_store_NoDup : NoDup (JsMap.keys (content sample_store)).
Proof.
  repeat constructor; simpl; intuition discriminate.
Defined.

Lemma createContent_adds_one_witness :
  JsMap.size (content (snd (createContent sample_store (sample_insert "tiktok") 3000)))
  = 3
  /\ getContent sample_store 3 = None.
Proof.
  pose proof (createContent_adds_one sample_store (sample_insert "tiktok") 3000
                sample_store_keys_below_counter) as H.
  split; [exact (proj1 (proj2 (proj2 H))) | exact (proj1 H)].
Defined.

Lemma deleteContent_removes_one_witness :
  JsMap.size (content (snd (deleteContent sample_store 1))) = 1
  /\ snd (deleteContent sample_store 7) = sample_store.
Proof.
  pose proof (deleteContent_removes_one sample_store 1) as H1.
  pose proof (deleteContent_removes_one sample_store 7) as H7.
  split.
  - refine (proj1 (proj2 (proj2 H1)) sample_store_NoDup _). discriminate.
  - exact (proj1 (proj2 H7) eq_refl).
Defined.

Lemma getContentByUserId_after_delete_witness :
  map id (getContentByUserId (snd (deleteContent sample_store 2)) 1) = [1].
Proof.
  exact (f_equal (map id)
           (getContentByUserId_after_delete sample_store 2 1
              sample_store_ids_match_keys sample_store_valid_instants)).
Defined.

Lemma getContentByUserId_after_create_witness :
  map id
    (getContentByUserId
       (snd (createContent sample_store (sample_insert "tiktok") 3000)) 1)
  = [3; 2; 1].
Proof.
  pose proof (getContentByUserId_after_create sample_store
                (sample_insert "tiktok") 3000
                sample_store_keys_below_counter) as H.
  refine (f_equal (map id)
            (proj2 (proj2 (proj2 H)) sample_store_valid_instants _ _)).
  - unfold valid_instant, max_instant. lia.
  - repeat constructor.
Defined.

Lemma getContentByUserId_after_update_witness :
  map title (getContentByUserId (snd (updateContent sample_store 1 sample_retitle)) 1)
  = ["Launch"; "Relaunch"]%string.
Proof.
  exact (f_equal (map title)
           (getContentByUserId_after_update sample_store 1 1 sample_retitle _
              sample_store_ids_match_keys sample_store_NoDup eq_refl
              eq_refl eq_refl eq_refl)).
Defined.

Lemma listed_records_can_be_fetched_witness :
  map id (getContentByUserId (fst (run new_MemStorage sample_ops)) 1) = [3; 2]
  /\ Forall
       (fun c => getContent (fst (run new_MemStorage sample_ops)) (id c) = Some c)
       (getContentByUserId (fst (run new_MemStorage sample_ops)) 1).
Proof.
  split; [reflexivity |].
  refine (proj2 (proj2 (listed_records_can_be_fetched sample_ops 1 _))).
  repeat constructor.
Defined.

(** Two users of one name: both are stored, the older one answers. *)
Lemma createUser_lookup_witness :
  let alice := {| ins_username := "alice"; ins_password := "first" |} in
  let again := {| ins_username := "alice"; ins_password := "second" |} in
  let s1 := snd (createUser new_UserStorage alice) in
  let s2 := snd (createUser s1 again) in
  option_map password (getUserByUsername s2 "alice") = Some "first"%string
  /\ option_map password (getUser s2 2) = Some "second"%string.
Proof.
  cbv zeta.
  pose proof (createUser_lookup
                (snd (createUser new_UserStorage
                        {| ins_username := "alice"; ins_password := "first" |}))
                {| ins_username := "alice"; ins_password := "second" |}) as H.
  destruct H as (_ & Hget & _ & Hname & _); [repeat constructor |].
  split.
  - exact (f_equal (option_map password) Hname).
  - exact (f_equal (option_map password) Hget).
Defined.

Lemma generate_twice_witness :
  fst (generate_handler (fun _ => Return sample_generated) (fun _ => EmptyString)
         2000 sample_request
         (snd (generate_handler (fun _ => Return sample_generated)
                 (fun _ => EmptyString) 1000 sample_request initial_world)))
  = json (GeneratedBody 2 sample_generated).
Proof.
  refine (proj1 (proj2 (generate_twice (fun _ => Return sample_generated)
                          (fun _ => EmptyString) 1000 2000 sample_request
                          initial_world sample_generated
                          sample_request_valid eq_refl _))).
  constructor.
Defined.

Lemma generate_status_and_store_witness :
  status (fst (generate_handler (fun _ => Return sample_generated)
                 (fun _ => EmptyString) 1000 sample_request_without_brief
                 initial_world)) = 400
  /\ snd (generate_handler (fun _ => Return sample_generated)
            (fun _ => EmptyString) 1000 sample_request_without_brief
            initial_world) = initial_world.
Proof.
  pose proof (generate_status_and_store (fun _ => Return sample_generated)
                (fun _ => EmptyString) 1000 sample_request_without_brief
                initial_world (Forall_nil _)) as H.
  split; [reflexivity |].
  exact (proj1 (proj2 (proj2 H)) eq_refl).
Defined.

Lemma generate_then_get_witness :
  exists c,
    fst (get_handler (Int 1)
           (snd (generate_handler (fun _ => Return sample_generated)
                   (fun _ => EmptyString) 1000 sample_request initial_world)))
    = JsonReply 200 (ContentPayload c)
    /\ generatedContent c = "We are live"%string.
Proof.
  destruct (generate_then_get (fun _ => Return sample_generated)
              (fun _ => EmptyString) 1000 sample_request initial_world
              sample_generated sample_request_valid eq_refl)
    as (c & Hget & _ & Hcontent & _).
  exists c. split; [exact (f_equal fst Hget) | exact Hcontent].
Defined.

Lemma delete_handler_then_gone_witness :
  fst (delete_handler (Int 1) sample_world)
  = EmptyReply 204
  /\ delete_handler NaN initial_world
     = (JsonReply 404 (ErrorPayload "Content not found"), initial_world).
Proof.
  split.
  - refine (proj1 (delete_handler_then_gone (Int 1) sample_world) _). discriminate.
  - exact (proj1 (proj2 (delete_handler_then_gone NaN initial_world)) eq_refl).
Defined.

Lemma update_handler_then_get_witness :
  update_handler (Int 4) sample_update_with_id initial_world
  = (status_json 404 (ErrorBody "Content not found"), initial_world)
  /\ status
       (fst (update_handler (Int 1) sample_update_with_id sample_world))
     = 200.
Proof.
  split.
  - exact (proj1 (update_handler_then_get (Int 4) sample_update_with_id
                    initial_world) eq_refl).
  - exact (f_equal status
             (proj1 (proj2 (update_handler_then_get (Int 1) sample_update_with_id
                              sample_world)
                       (fst (createContent new_MemStorage
                               (sample_insert "twitter") 1000))
                       eq_refl))).
Defined.

Lemma optimize_handler_calls_witness :
  optimize_handler (fun _ => Throw "rate limited")
    {| body_content := Some "We are live"%string;
       body_fromPlatform := None;
       body_toPlatform := Some "linkedin"%string |} []
  = (JsonReply 400
       (ErrorPayload "Missing required fields: content, fromPlatform, toPlatform"),
     [])
  /\ exists call,
       snd (optimize_handler (fun _ => Throw "rate limited")
              sample_optimize_request [])
       = [call]
       /\ call_toPlatform call = "linkedin"%string.
Proof.
  split.
  - refine (proj1 (optimize_handler_calls (fun _ => Throw "rate limited") _ []) _).
    right. left. now left.
  - destruct (proj2 (optimize_handler_calls (fun _ => Throw "rate limited")
                       sample_optimize_request []))
      as (call & _ & _ & Hto & Hcalls & _);
      try (unfold missing; simpl; intuition discriminate).
    exists call. split; [exact Hcalls |].
    simpl in Hto. now injection Hto as <-.
Defined.

Lemma upload_never_exceeds_maxFiles_witness :
  Z.of_nat
    (length (upload_run 2 [Drop [1; 2; 3]%nat; Remove 0; Drop [4; 5; 6]%nat]))
  <= 2.
Proof.
  apply (upload_never_exceeds_maxFiles 2). lia.
Defined.

Lemma onDrop_keeps_held_files_witness :
  onDrop [1; 2]%nat 3 [7; 8; 9]%nat = [1; 2; 7]%nat.
Proof.
  refine (onDrop_keeps_held_files [1; 2]%nat 3 [7; 8; 9]%nat _). simpl. lia.
Defined.

Lemma removeFile_at_witness :
  removeFile [7; 8; 9]%nat 1 = [7; 9]%nat
  /\ removeFile [7; 8; 9]%nat 3 = [7; 8; 9]%nat.
Proof.
  split.
  - refine (proj1 (proj1 (removeFile_at [7; 8; 9]%nat 1) _)). simpl. lia.
  - apply (proj2 (removeFile_at [7; 8; 9]%nat 3)). right. simpl. lia.
Defined.

Lemma sample_form_within_upload_limits :
  within_upload_limits sample_form [sample_image].
Proof.
  unfold within_upload_limits, text_within_limit, maxCount, fileSize, fieldSize.
  split; [simpl; lia |].
  split; [constructor; [split; [reflexivity | simpl; lia] | constructor] |].
  split; [vm_compute; reflexivity |].
  split; [vm_compute; reflexivity |].
  split; [vm_compute; reflexivity | exact I].
Defined.

Lemma accepted_form_passes_server_check_witness :
  status (fst (generate_handler (fun _ => Throw "upstream timeout")
                 (fun _ => EmptyString) 1000
                 (received (build_formData sample_form (Some [sample_image])))
                 initial_world))
  <> 400
  /\ body_template (received (build_formData sample_form (Some [sample_image])))
     = None.
Proof.
  split; [| reflexivity].
  exact (proj1 (proj2 (accepted_form_passes_server_check
                         (fun _ => Throw "upstream timeout")
                         (fun _ => EmptyString) sample_form [sample_image] 1000
                         initial_world eq_refl
                         sample_form_within_upload_limits))).
Defined.

Lemma sample_store_ordinary : Forall ordinary (getContentByUserId sample_store 1).
Proof. repeat constructor. Defined.

Lemma getContentStats_counts_each_platform_witness :
  platforms (getContentStats sample_store 1) = 2
  /\ JsObject.own "youtube" (byPlatform (getContentStats sample_store 1))
     = Some (JsObject.Num 1)
  /\ JsObject.own "tiktok" (byPlatform (getContentStats sample_store 1)) = None.
Proof.
  split; [| split].
  - exact (proj1 (proj2 (proj2 (getContentStats_counts_each_platform
                                  sample_store 1 "youtube" sample_store_ordinary)))).
  - exact (proj2 (proj2 (proj2 (getContentStats_counts_each_platform
                                  sample_store 1 "youtube" sample_store_ordinary)))).
  - exact (proj2 (proj2 (proj2 (getContentStats_counts_each_platform
                                  sample_store 1 "tiktok" sample_store_ordinary)))).
Defined.

Lemma templates_handler_filters_witness :
  exists l,
    templates_handler (Some "tiktok"%string) initializeTemplates
    = JsonReply 200 (TemplateListPayload l)
    /\ map tpl_name l = ["TikTok Script"%string].
Proof.
  destruct (templates_handler_filters (Some "tiktok"%string) initializeTemplates)
    as (l & Hreply & _ & Hfilter).
  destruct (Hfilter "tiktok"%string eq_refl) as (Hl & _); [discriminate |].
  exists l. split; [exact Hreply |]. rewrite Hl. reflexivity.
Defined.

Lemma analyze_handler_status_and_store_witness :
  fst (analyze_handler (fun _ => Return "a red bicycle"%string) (fun _ => EmptyString)
         (Some [Byte.x00]) initial_world)
  = json (AnalysisBody "a red bicycle").
Proof.
  apply (proj2 (analyze_handler_status_and_store
                  (fun _ => Return "a red bicycle"%string) (fun _ => EmptyString)
                  (Some [Byte.x00]) initial_world)).
  exists [Byte.x00]. split; reflexivity.
Defined.

Lemma update_moves_record_to_owner_witness :
  getContentByUserId
    (snd (updateContent sample_store 1 sample_reassign))
    2
  <> []
  /\ Forall (fun c => id c <> 1)
       (getContentByUserId
          (snd (updateContent sample_store 1 sample_reassign))
          1).
Proof.
  split; [discriminate |].
  refine (proj1 (update_moves_record_to_owner sample_store 1 1 2 sample_reassign _
                   sample_store_ids_match_keys sample_store_NoDup
                   eq_refl eq_refl eq_refl _)).
  discriminate.
Defined.
